(** * Token lifecycle of the auth service

    A shallow embedding of the auth service's token engine
    (TokenService, UsersService, AuthService, JwtStrategy,
    JwtRefreshStrategy, AuthMicroserviceController) together with the
    behaviour of the libraries those classes call: the JWT compact
    serialisation, bcryptjs, and the Redis commands SET .. EX, GET, DEL. *)

From Stdlib Require Import NArith String Ascii List Lia.
From Stdlib Require Import DecimalString.
From stdpp Require Import gmap strings.

Local Open Scope string_scope.
Local Open Scope N_scope.

(** ** Text helpers *)

(** The one-character text holding a double quote. *)
Definition dq : string := String (ascii_of_nat 34) EmptyString.

(** The first [n] bytes of a text. *)
Fixpoint take (n : nat) (s : string) : string :=
  match n, s with
  | S n', String c s' => String c (take n' s')
  | _, _ => EmptyString
  end.

(** What is left of a text after its first [n] bytes. *)
Fixpoint drop (n : nat) (s : string) : string :=
  match n, s with
  | S n', String _ s' => drop n' s'
  | _, _ => s
  end.

(** Decimal rendering of a number, as JavaScript prints integers. *)
Definition decimal (n : N) : string := NilEmpty.string_of_uint (N.to_uint n).

(** ** base64url, without padding (RFC 7515, appendix C) *)
Module Base64url.

Definition alphabet : string :=
  "ABCDEFGHIJKLMNOPQRSTUVWXYZabcdefghijklmnopqrstuvwxyz0123456789-_".

Definition sextet (n : N) : ascii :=
  match String.get (N.to_nat n) alphabet with
  | Some c => c
  | None => "="%char
  end.

Fixpoint encode (s : string) : string :=
  match s with
  | EmptyString => EmptyString
  | String a EmptyString =>
      let x := N_of_ascii a in
      String (sextet (x / 4)) (String (sextet ((x mod 4) * 16)) EmptyString)
  | String a (String b EmptyString) =>
      let x := N_of_ascii a in
      let y := N_of_ascii b in
      String (sextet (x / 4))
        (String (sextet ((x mod 4) * 16 + y / 16))
           (String (sextet ((y mod 16) * 4)) EmptyString))
  | String a (String b (String c rest)) =>
      let x := N_of_ascii a in
      let y := N_of_ascii b in
      let z := N_of_ascii c in
      String (sextet (x / 4))
        (String (sextet ((x mod 4) * 16 + y / 16))
           (String (sextet ((y mod 16) * 4 + z / 64))
              (String (sextet (z mod 64)) (encode rest))))
  end.

End Base64url.

(** ** JSON values and JSON.stringify, as far as token payloads need them *)
Module Json.

Inductive value :=
| JStr (s : string)
| JNum (n : N)
| JArr (items : list string).

(** A JavaScript object literal: its keys in insertion order. *)
Definition object := list (string * value).

Fixpoint get (k : string) (o : object) : option value :=
  match o with
  | [] => None
  | (k', v) :: o' => if String.eqb k k' then Some v else get k o'
  end.

Definition hex_digit (n : N) : ascii :=
  match String.get (N.to_nat n) "0123456789abcdef" with
  | Some c => c
  | None => "0"%char
  end.

(** JSON.stringify escapes the quote, the backslash and the control
    characters of a string. *)
Definition escape_char (c : ascii) : string :=
  let n := N_of_ascii c in
  if n =? 34 then "\" +:+ dq
  else if n =? 92 then "\\"
  else if n =? 8 then "\b"
  else if n =? 9 then "\t"
  else if n =? 10 then "\n"
  else if n =? 12 then "\f"
  else if n =? 13 then "\r"
  else if n <? 32 then
    "\u00" +:+ String (hex_digit (n / 16)) (String (hex_digit (n mod 16)) EmptyString)
  else String c EmptyString.

Fixpoint escape (s : string) : string :=
  match s with
  | EmptyString => EmptyString
  | String c s' => escape_char c +:+ escape s'
  end.

Definition quote (s : string) : string := dq +:+ escape s +:+ dq.

Fixpoint join (sep : string) (l : list string) : string :=
  match l with
  | [] => EmptyString
  | [x] => x
  | x :: l' => x +:+ sep +:+ join sep l'
  end.

Definition stringify_value (v : value) : string :=
  match v with
  | JStr s => quote s
  | JNum n => decimal n
  | JArr l => "[" +:+ join "," (map quote l) +:+ "]"
  end.

Definition stringify_field (f : string * value) : string :=
  quote (fst f) +:+ ":" +:+ stringify_value (snd f).

Definition stringify (o : object) : string :=
  "{" +:+ join "," (map stringify_field o) +:+ "}".

(** What a template literal [`${x}`] prints for a property that may be
    missing. *)
Definition template (v : option value) : string :=
  match v with
  | None => "undefined"
  | Some (JStr s) => s
  | Some (JNum n) => decimal n
  | Some (JArr l) => join "," l
  end.

End Json.

(** ** Cryptographic primitives

    The keyed MAC behind HS256 and the Blowfish-based digest behind bcrypt
    are not modelled bit by bit: every definition below is parametric in
    them, and every theorem holds whatever functions they are. *)
Class Crypto := {
  (** [hmac secret text]: the base64url HMAC-SHA256 of [text]. *)
  hmac : string -> string -> string;
  (** [bcrypt_raw salt key]: the digest text bcrypt derives from a salt and
      a key of at most 72 bytes. *)
  bcrypt_raw : string -> string -> string
}.

(** ** jsonwebtoken: sign and verify *)
Module Jwt.

(** A presented token text.  [Signed p s] stands for the compact text
    [b64(header).b64(JSON p).s]; [Opaque raw] for any text that does not
    decode as three dot-separated parts holding JSON. *)
Inductive token :=
| Opaque (raw : string)
| Signed (payload : Json.object) (signature : string).

Inductive error :=
| Malformed
| InvalidSignature
| InvalidExp
| TokenExpired.

Definition header : Json.object :=
  [("alg", Json.JStr "HS256"); ("typ", Json.JStr "JWT")].

Definition signing_input (payload : Json.object) : string :=
  Base64url.encode (Json.stringify header) +:+ "." +:+
  Base64url.encode (Json.stringify payload).

(** The text of a token as it travels in requests. *)
Definition compact (t : token) : string :=
  match t with
  | Opaque raw => raw
  | Signed payload signature => signing_input payload +:+ "." +:+ signature
  end.

Section WithCrypto.
Context `{Crypto}.

(** [sign(payload, {secret, expiresIn})] at clock [now_s] (seconds):
    [iat] and [exp] are appended to a copy of the payload. *)
Definition sign (payload : Json.object) (secret : string)
    (expiresIn : N) (now_s : N) : token :=
  let p := (payload ++ [("iat", Json.JNum now_s);
                        ("exp", Json.JNum (now_s + expiresIn))])%list in
  Signed p (hmac secret (signing_input p)).

(** [verify(token, {secret})] with [ignoreExpiration: false]: decode,
    then check the signature, then the expiry ([clockTimestamp >= exp]
    is expired; a payload without [exp] does not expire). *)
Definition verify (t : token) (secret : string) (now_s : N)
    : error + Json.object :=
  match t with
  | Opaque _ => inl Malformed
  | Signed payload signature =>
      if String.eqb signature (hmac secret (signing_input payload)) then
        match Json.get "exp" payload with
        | None => inr payload
        | Some (Json.JNum e) =>
            if e <=? now_s then inl TokenExpired else inr payload
        | Some _ => inl InvalidExp
        end
      else inl InvalidSignature
  end.

(** The two local checks of [verify], each on its own. *)
Definition signature_ok (t : token) (secret : string) : bool :=
  match t with
  | Opaque _ => false
  | Signed p s => String.eqb s (hmac secret (signing_input p))
  end.

Definition expiry_ok (t : token) (now_s : N) : bool :=
  match t with
  | Opaque _ => false
  | Signed p _ =>
      match Json.get "exp" p with
      | None => true
      | Some (Json.JNum e) => now_s <? e
      | Some _ => false
      end
  end.

Definition payload_of (t : token) : Json.object :=
  match t with
  | Opaque _ => []
  | Signed p _ => p
  end.

End WithCrypto.
End Jwt.

(** ** The head of a refresh token

    A refresh token carries the payload [{sub, iat, exp}], so its text
    starts with the encoded header, a dot, and the encoding of the opening
    of the payload up to the subject id. *)
Module RefreshToken.

(** The eight bytes that open the payload, up to the subject id. *)
Definition payload_opening : string := "{" +:+ dq +:+ "sub" +:+ dq +:+ ":" +:+ dq.

(** The first 72 bytes of the refresh tokens of a subject whose id has at
    least 19 characters (a uuid has 36). *)
Definition head (subject_id : string) : string :=
  take 72 (Base64url.encode (Json.stringify Jwt.header) +:+ "." +:+
           Base64url.encode (payload_opening +:+ take 19 (Json.escape subject_id))).

End RefreshToken.

(** ** bcryptjs: hash and compare *)
Module Bcrypt.

(** bcryptjs documents a maximum input length of 72 bytes and leaves it
    unchecked: the Blowfish key schedule reads the first 72 bytes of the
    input and nothing that follows them; longer inputs are neither
    rejected nor hashed beforehand. *)
Definition max_input : nat := 72.

(** A salt text is 29 characters: version, cost and 22 characters of
    randomness. *)
Definition salt_length : nat := 29.

Section WithCrypto.
Context `{Crypto}.

(** [hash(s, salt)]: the salt followed by the digest. *)
Definition hash (salt : string) (s : string) : string :=
  salt +:+ bcrypt_raw salt (take max_input s).

(** [compare(s, h)]: hash [s] again with the salt recorded in [h] and
    compare the two texts.  (The library also answers false at once for
    an [h] that is not 60 characters long; the digests here are abstract
    texts, so that length test is left out.) *)
Definition compare (s : string) (h : string) : bool :=
  String.eqb (hash (take salt_length h) s) h.

End WithCrypto.
End Bcrypt.

(** Stand-ins used to run the model on concrete inputs: the MAC keeps
    key and text in full and the digest is the key itself, so they tell
    apart everything that real primitives tell apart. *)
Definition plain_hmac (secret text : string) : string := secret +:+ "/" +:+ text.
Definition plain_bcrypt_raw (salt key : string) : string := key.

#[local] Instance plain_crypto : Crypto :=
  {| hmac := plain_hmac; bcrypt_raw := plain_bcrypt_raw |}.

(** ** The world the service runs in *)

(** A Redis key written with [SET key value EX seconds]: the value and the
    instant (milliseconds) at which the key expires. *)
Record entry := { value : string; expires_at : N }.

(** Commands sent over the Redis connection. *)
Inductive command :=
| GET (key : string)
| SET (key : string) (val : string) (ex : N)
| DEL (key : string).

(** users.entity.ts *)
Record User := {
  id : string;
  email : string;
  password : string;
  firstName : option string;
  lastName : option string;
  isActive : bool;
  roles : list string;
  createdAt : N;
  updatedAt : N
}.

(** The values read through ConfigService; the configuration factory is
    not part of the sources, so they are parameters. *)
Record Config := {
  accessSecret : string;
  refreshSecret : string;
  accessExpiresIn : N;   (* seconds *)
  refreshExpiresIn : N   (* seconds *)
}.

Record World := {
  redis : gmap string entry;     (* the key space of the Redis server *)
  redis_log : list command;      (* commands issued so far, latest first *)
  users : list User              (* the users table *)
}.

(** What one call sees of its surroundings: the configuration, the clock
    (Date.now(), milliseconds) and whether the Redis server answers. *)
Record Env := {
  config : Config;
  now : N;
  redis_up : bool
}.

Definition now_s (env : Env) : N := now env / 1000.

(** A call made at instant [t] with Redis answering. *)
Definition online (cfg : Config) (t : N) : Env :=
  {| config := cfg; now := t; redis_up := true |}.

Inductive Exception :=
| UnauthorizedException (message : string)
| ConflictException (message : string)
| JsonWebTokenError (e : Jwt.error)    (* thrown by jwtService.verify *)
| IllegalArguments                     (* thrown by bcrypt.compare(undefined, _) *)
| RedisError.                          (* a command the server did not answer *)

(** ** Promises: state and exceptions *)
Definition M (A : Type) : Type := Env -> World -> (Exception + A) * World.

Definition ret {A} (a : A) : M A := fun _ w => (inr a, w).

Definition throw {A} (e : Exception) : M A := fun _ w => (inl e, w).

Definition bind {A B} (m : M A) (k : A -> M B) : M B :=
  fun env w =>
    match m env w with
    | (inr a, w') => k a env w'
    | (inl e, w') => (inl e, w')
    end.

(** [try { m } catch { h }] *)
Definition try_catch {A} (m : M A) (h : M A) : M A :=
  fun env w =>
    match m env w with
    | (inr a, w') => (inr a, w')
    | (inl _, w') => h env w'
    end.

(** [Promise.all([a, b])]: both are started, whatever becomes of the
    other; the first rejection wins. *)
Definition promise_all {A B} (a : M A) (b : M B) : M (A * B) :=
  fun env w =>
    let (ra, w1) := a env w in
    let (rb, w2) := b env w1 in
    match ra, rb with
    | inr x, inr y => (inr (x, y), w2)
    | inl e, _ => (inl e, w2)
    | _, inl e => (inl e, w2)
    end.

Definition ask : M Env := fun env w => (inr env, w).

Notation "'await' x <- m ; k" := (bind m (fun x => k))
  (at level 60, m at next level, right associativity).

(** ** ioredis

    A key set with EX lives until its expiry instant; GET of a key that is
    missing or past that instant answers null.  A command sent while the
    server does not answer is logged and rejects. *)
Module Redis.

Definition live (t : N) (e : entry) : bool := t <? expires_at e.

Definition lookup (t : N) (k : string) (m : gmap string entry) : option string :=
  match m !! k with
  | Some e => if live t e then Some (value e) else None
  | None => None
  end.

Definition issue (c : command) (w : World) : World :=
  {| redis := redis w; redis_log := c :: redis_log w; users := users w |}.

Definition store (m : gmap string entry) (w : World) : World :=
  {| redis := m; redis_log := redis_log w; users := users w |}.

Definition get (k : string) : M (option string) :=
  fun env w =>
    let w' := issue (GET k) w in
    if redis_up env then (inr (lookup (now env) k (redis w)), w')
    else (inl RedisError, w').

Definition set (k v : string) (ex : N) : M unit :=
  fun env w =>
    let w' := issue (SET k v ex) w in
    if redis_up env then
      (inr tt, store (<[k := {| value := v; expires_at := now env + 1000 * ex |}]> (redis w)) w')
    else (inl RedisError, w').

Definition del (k : string) : M unit :=
  fun env w =>
    let w' := issue (DEL k) w in
    if redis_up env then (inr tt, store (delete k (redis w)) w')
    else (inl RedisError, w').

End Redis.

(** ** token.service.ts *)
Module TokenService.

Definition refresh_key (userId : string) : string := "refresh:" +:+ userId.
Definition blacklist_key (jti : string) : string := "blacklist:" +:+ jti.

Definition default_ttlSeconds : N := 604800.

Definition saveRefreshToken (userId token : string) (ttlSeconds : N) : M unit :=
  Redis.set (refresh_key userId) token ttlSeconds.

Definition getRefreshToken (userId : string) : M (option string) :=
  Redis.get (refresh_key userId).

Definition deleteRefreshToken (userId : string) : M unit :=
  Redis.del (refresh_key userId).

Definition blacklistToken (jti : string) (ttlSeconds : N) : M unit :=
  Redis.set (blacklist_key jti) "1" ttlSeconds.

Definition isBlacklisted (jti : string) : M bool :=
  await result <- Redis.get (blacklist_key jti);
  ret (match result with Some _ => true | None => false end).

End TokenService.

(** ** users.service.ts *)
Module UsersService.

(** The fields of create-user.dto.ts the service reads; the DTO file is not
    part of the sources. *)
Record CreateUserDto := {
  dto_email : string;
  dto_password : string;
  dto_firstName : option string;
  dto_lastName : option string
}.

Definition by_email (e : string) (u : User) : bool := String.eqb (email u) e.
Definition by_id (i : string) (u : User) : bool := String.eqb (id u) i.

(** The first row of the users table that satisfies [p]. *)
Definition select (p : User -> bool) (w : World) : option User :=
  List.find p (users w).

(** Whether the directory holds an active user with this id. *)
Definition active_subject (i : string) (w : World) : bool :=
  match select (by_id i) w with
  | Some u => isActive u
  | None => false
  end.

Definition findOne (p : User -> bool) : M (option User) :=
  fun _ w => (inr (select p w), w).

Definition save (u : User) : M User :=
  fun _ w =>
    (inr u, {| redis := redis w; redis_log := redis_log w;
               users := (users w ++ [u])%list |}).

Definition findByEmail (e : string) : M (option User) :=
  findOne (by_email e).

Definition findById (i : string) : M (option User) :=
  findOne (by_id i).

Section WithCrypto.
Context `{Crypto}.

(** [newId] is the uuid the database generates for the row and [salt]
    the salt bcrypt draws; the column defaults are [isActive = true]
    and [roles = user]. *)
Definition create (newId salt : string) (dto : CreateUserDto) : M User :=
  await existing <- findOne (by_email (dto_email dto));
  match existing with
  | Some _ => throw (ConflictException "Email already registered")
  | None =>
      let hashed := Bcrypt.hash salt (dto_password dto) in
      await env <- ask;
      save {| id := newId; email := dto_email dto; password := hashed;
              firstName := dto_firstName dto; lastName := dto_lastName dto;
              isActive := true; roles := ["user"];
              createdAt := now env; updatedAt := now env |}
  end.

Definition validatePassword (plain hashed : string) : M bool :=
  ret (Bcrypt.compare plain hashed).

End WithCrypto.
End UsersService.

(** ** auth.service.ts *)
Module AuthService.

Record PublicUser := { pu_id : string; pu_email : string; pu_roles : list string }.

Record Tokens := {
  accessToken : Jwt.token;
  refreshToken : Jwt.token;
  user : PublicUser
}.

Record Validation := { valid : bool; payload : option Json.object }.

Record Message := { message : string }.

Definition accessTtl : N := 15 * 60.

(** The reply [{ valid: false }]. *)
Definition invalid : Validation := {| valid := false; payload := None |}.

Section WithCrypto.
Context `{Crypto}.

(** The two tokens a call mints at the instant [env] describes; [jti]
    is the value of uuidv4(). *)
Definition accessPayload (jti : string) (u : User) : Json.object :=
  [("sub", Json.JStr (id u)); ("email", Json.JStr (email u));
   ("roles", Json.JArr (roles u)); ("jti", Json.JStr jti)].

Definition signAccess (env : Env) (jti : string) (u : User) : Jwt.token :=
  Jwt.sign (accessPayload jti u) (accessSecret (config env))
           (accessExpiresIn (config env)) (now_s env).

Definition signRefresh (env : Env) (u : User) : Jwt.token :=
  Jwt.sign [("sub", Json.JStr (id u))] (refreshSecret (config env))
           (refreshExpiresIn (config env)) (now_s env).

(** [salt] is the salt drawn by bcrypt.hash(refreshToken, 10). *)
Definition generateTokens (jti salt : string) (u : User) : M Tokens :=
  await env <- ask;
  let accessToken := signAccess env jti u in
  let refreshToken := signRefresh env u in
  let hashed := Bcrypt.hash salt (Jwt.compact refreshToken) in
  await _ <- TokenService.saveRefreshToken (id u) hashed
               TokenService.default_ttlSeconds;
  ret {| accessToken := accessToken; refreshToken := refreshToken;
         user := {| pu_id := id u; pu_email := email u; pu_roles := roles u |} |}.

Definition validateUser (e p : string) : M (option User) :=
  await found <- UsersService.findByEmail e;
  match found with
  | None => ret None
  | Some u =>
      await ok <- UsersService.validatePassword p (password u);
      ret (if ok then Some u else None)
  end.

Definition register (newId pwSalt jti salt : string)
    (dto : UsersService.CreateUserDto) : M Tokens :=
  await u <- UsersService.create newId pwSalt dto;
  generateTokens jti salt u.

Definition login (jti salt : string) (u : User) : M Tokens :=
  generateTokens jti salt u.

Definition refresh (jti salt : string) (u : User) : M Tokens :=
  generateTokens jti salt u.

Definition logout (userId jti : string) : M Message :=
  await _ <- promise_all (TokenService.blacklistToken jti accessTtl)
                         (TokenService.deleteRefreshToken userId);
  ret {| message := "Logged out successfully" |}.

Definition validateToken (t : Jwt.token) : M Validation :=
  try_catch
    (await env <- ask;
     match Jwt.verify t (accessSecret (config env)) (now_s env) with
     | inl e => throw (JsonWebTokenError e)
     | inr p =>
         await blacklisted <-
           TokenService.isBlacklisted (Json.template (Json.get "jti" p));
         ret (if blacklisted : bool
              then invalid
              else {| valid := true; payload := Some p |})
     end)
    (ret invalid).

End WithCrypto.
End AuthService.

(** ** passport-jwt *)
Module Passport.

(** The parts of an HTTP request the strategies read. *)
Record Request := {
  bearer : option Jwt.token;             (* Authorization: Bearer <token> *)
  body_refreshToken : option Jwt.token   (* req.body?.refreshToken *)
}.

(** A request with an Authorization header, and one with a JSON body. *)
Definition bearer_request (t : Jwt.token) : Request :=
  {| bearer := Some t; body_refreshToken := None |}.

Definition body_request (rt : Jwt.token) : Request :=
  {| bearer := None; body_refreshToken := Some rt |}.

Section WithCrypto.
Context `{Crypto}.

(** Strategy.authenticate with [ignoreExpiration: false] and
    [passReqToCallback: true]: extract the token, verify it with
    [secretOrKey], hand request and payload to [validate].  A missing
    or rejected token makes the guard answer 401; what [validate]
    throws is passed on as it is. *)
Definition authenticate {A} (jwtFromRequest : Request -> option Jwt.token)
    (secretOrKey : Config -> string)
    (validate : Request -> Json.object -> M A) (req : Request) : M A :=
  match jwtFromRequest req with
  | None => throw (UnauthorizedException "Unauthorized")
  | Some t =>
      await env <- ask;
      match Jwt.verify t (secretOrKey (config env)) (now_s env) with
      | inl _ => throw (UnauthorizedException "Unauthorized")
      | inr p => validate req p
      end
  end.

End WithCrypto.
End Passport.

(** ** strategies/jwt.strategy.ts *)
Module JwtStrategy.

Record Principal := {
  p_id : string;
  p_email : string;
  p_roles : list string;
  p_jti : option Json.value
}.

Section WithCrypto.
Context `{Crypto}.

(** [payload.jti] and [payload.sub] are read as the strings the JwtPayload
    interface declares; a property the payload lacks stands as the text a
    template literal prints for it.  Tokens minted by this service carry
    both. *)
Definition validate (req : Passport.Request) (payload : Json.object)
    : M Principal :=
  await revoked <-
    TokenService.isBlacklisted (Json.template (Json.get "jti" payload));
  if revoked : bool
  then throw (UnauthorizedException "Token has been revoked")
  else
    await found <-
      UsersService.findById (Json.template (Json.get "sub" payload));
    match found with
    | Some u =>
        if isActive u
        then ret {| p_id := id u; p_email := email u; p_roles := roles u;
                    p_jti := Json.get "jti" payload |}
        else throw (UnauthorizedException "User not found or inactive")
    | None => throw (UnauthorizedException "User not found or inactive")
    end.

(** The guard built from the constructor's options. *)
Definition guard : Passport.Request -> M Principal :=
  Passport.authenticate Passport.bearer accessSecret validate.

End WithCrypto.
End JwtStrategy.

(** ** strategies/jwt-refresh.strategy.ts *)
Module JwtRefreshStrategy.
Section WithCrypto.
Context `{Crypto}.

Definition validate (req : Passport.Request) (payload : Json.object)
    : M User :=
  await stored <-
    TokenService.getRefreshToken (Json.template (Json.get "sub" payload));
  match stored with
  | None | Some EmptyString =>
      throw (UnauthorizedException "Refresh token expired or not found")
  | Some stored =>
      match Passport.body_refreshToken req with
      | None => throw IllegalArguments
      | Some incoming =>
          if Bcrypt.compare (Jwt.compact incoming) stored then
            await found <-
              UsersService.findById (Json.template (Json.get "sub" payload));
            match found with
            | None => throw (UnauthorizedException "User not found")
            | Some u => ret u
            end
          else throw (UnauthorizedException "Invalid refresh token")
      end
  end.

Definition guard : Passport.Request -> M User :=
  Passport.authenticate Passport.body_refreshToken refreshSecret validate.

End WithCrypto.
End JwtRefreshStrategy.

(** ** auth.microservice.controller.ts *)
Module AuthMicroserviceController.

Inductive UserFromToken :=
| ErrorReply (error : string)
| UserReply (user : option Json.object).

Section WithCrypto.
Context `{Crypto}.

Definition validateToken (t : Jwt.token) : M AuthService.Validation :=
  AuthService.validateToken t.

Definition getUserFromToken (t : Jwt.token) : M UserFromToken :=
  await result <- AuthService.validateToken t;
  if AuthService.valid result
  then ret (UserReply (AuthService.payload result))
  else ret (ErrorReply "Invalid or expired token").

End WithCrypto.
End AuthMicroserviceController.

(** ** A concrete run

    One configuration, two users and a timeline, evaluated with the
    stand-in primitives. *)
Module Scenario.

Definition cfg : Config :=
  {| accessSecret := "access-secret"; refreshSecret := "refresh-secret";
     accessExpiresIn := 900; refreshExpiresIn := 604800 |}.

Definition alice : User :=
  {| id := "3f2b8c1e-7a4d-4e9b-9c1a-5d6e7f8091a2"; email := "alice@example.com";
     password := "$2a$12$KIXQJ7wq0q1Zb3h5e6f7g.alice-password";
     firstName := Some "Alice"; lastName := None; isActive := true;
     roles := ["user"]; createdAt := 1690000000000; updatedAt := 1690000000000 |}.

(** A user whose account has been deactivated. *)
Definition bob : User :=
  {| id := "9a8b7c6d-5e4f-4a3b-8c2d-1e0f9a8b7c6d"; email := "bob@example.com";
     password := "$2a$12$KIXQJ7wq0q1Zb3h5e6f7g.bob-password";
     firstName := Some "Bob"; lastName := None; isActive := false;
     roles := ["user"]; createdAt := 1690000000000; updatedAt := 1699000000000 |}.

Definition world0 : World :=
  {| redis := ∅; redis_log := []; users := [alice; bob] |}.

(** The instant [t0 + s] seconds, Redis reachable or not. *)
Definition t0 : N := 1700000000000.
Definition at_s (s : N) : Env := online cfg (t0 + 1000 * s).
Definition offline_at_s (s : N) : Env :=
  {| config := cfg; now := t0 + 1000 * s; redis_up := false |}.

Definition salt1 : string := "$2a$10$abcdefghijklmnopqrstuv".
Definition salt2 : string := "$2a$10$ABCDEFGHIJKLMNOPQRSTUV".
Definition salt3 : string := "$2a$10$0123456789abcdefghijkl".

(** Alice logs in at [t0]. *)
Definition world1 : World := snd (AuthService.login "jti-1" salt1 alice (at_s 0) world0).
Definition at1 : Jwt.token := AuthService.signAccess (at_s 0) "jti-1" alice.
Definition rt1 : Jwt.token := AuthService.signRefresh (at_s 0) alice.

(** A minute later she refreshes with [rt1]. *)
Definition world2 : World :=
  snd (AuthService.refresh "jti-2" salt2 alice (at_s 60)
         (snd (JwtRefreshStrategy.guard (Passport.body_request rt1) (at_s 60) world1))).
Definition at2 : Jwt.token := AuthService.signAccess (at_s 60) "jti-2" alice.
Definition rt2 : Jwt.token := AuthService.signRefresh (at_s 60) alice.

(** Or she logs in a second time instead. *)
Definition world2' : World := snd (AuthService.login "jti-2" salt2 alice (at_s 60) world1).

(** The same service configured with one-hour access tokens, and the
    access token Alice gets from it at [t0]. *)
Definition cfg_1h : Config :=
  {| accessSecret := "access-secret"; refreshSecret := "refresh-secret";
     accessExpiresIn := 3600; refreshExpiresIn := 604800 |}.
Definition at_s_1h (s : N) : Env := online cfg_1h (t0 + 1000 * s).
Definition at1_1h : Jwt.token := AuthService.signAccess (at_s_1h 0) "jti-1" alice.

(** Alice logs out ten minutes after her login, and once more five
    minutes later. *)
Definition world_out : World :=
  snd (AuthService.logout (id alice) "jti-1" (at_s 600) world1).
Definition world_out_twice : World :=
  snd (AuthService.logout (id alice) "jti-1" (at_s 900) world_out).

(** With one-hour tokens: logout a minute after the token was signed. *)
Definition world_out_1h : World :=
  snd (AuthService.logout (id alice) "jti-1" (at_s_1h 60) world0).

(** An access token signed for Bob before his account was deactivated. *)
Definition bob_at : Jwt.token := AuthService.signAccess (at_s 0) "jti-bob" bob.

End Scenario.

(** ** Further runs: registration, outages and other configurations *)
Module Cases.

(** A registration form, the uuid the database gives the new row and the
    salt bcrypt draws for the password (cost 12). *)
Definition carol_dto : UsersService.CreateUserDto :=
  {| UsersService.dto_email := "carol@example.com";
     UsersService.dto_password := "correct horse battery staple";
     UsersService.dto_firstName := Some "Carol";
     UsersService.dto_lastName := None |}.
Definition carol_id : string := "5b1c2d3e-4f5a-4b6c-8d7e-9f0a1b2c3d4e".
Definition pw_salt : string := "$2a$12$abcdefghijklmnopqrstuv".

(** A form that reuses Alice's address. *)
Definition alice_again_dto : UsersService.CreateUserDto :=
  {| UsersService.dto_email := "alice@example.com";
     UsersService.dto_password := "another password";
     UsersService.dto_firstName := None;
     UsersService.dto_lastName := None |}.

(** A pass phrase of 81 bytes and a second one that differs from it
    after the 72nd byte only. *)
Definition long_password : string :=
  "0123456789abcdefghijklmnopqrstuvwxyzABCDEFGHIJKLMNOPQRSTUVWXYZ0123456789-SECRET-1".
Definition long_password' : string :=
  "0123456789abcdefghijklmnopqrstuvwxyzABCDEFGHIJKLMNOPQRSTUVWXYZ0123456789-secret-2".
Definition dave_dto : UsersService.CreateUserDto :=
  {| UsersService.dto_email := "dave@example.com";
     UsersService.dto_password := long_password;
     UsersService.dto_firstName := None;
     UsersService.dto_lastName := None |}.

(** Redis not answering at [t0 + s] seconds. *)
Definition down_at_s (s : N) : Env := Scenario.offline_at_s s.

(** Refresh tokens signed for thirty days. *)
Definition cfg_30d : Config :=
  {| accessSecret := "access-secret"; refreshSecret := "refresh-secret";
     accessExpiresIn := 900; refreshExpiresIn := 2592000 |}.
Definition at_s_30d (s : N) : Env := online cfg_30d (Scenario.t0 + 1000 * s).
Definition rt_30d : Jwt.token := AuthService.signRefresh (at_s_30d 0) Scenario.alice.

(** One secret for both kinds of token. *)
Definition cfg_one_secret : Config :=
  {| accessSecret := "one-secret"; refreshSecret := "one-secret";
     accessExpiresIn := 900; refreshExpiresIn := 604800 |}.
Definition at_s_one_secret (s : N) : Env :=
  online cfg_one_secret (Scenario.t0 + 1000 * s).

(** The world after Alice's login, with her row deleted from the users
    table. *)
Definition world1_without_alice : World :=
  {| redis := redis Scenario.world1; redis_log := redis_log Scenario.world1;
     users := [Scenario.bob] |}.

(** An access token with another token id, signed for Alice at [t0]. *)
Definition at1_other : Jwt.token :=
  AuthService.signAccess (Scenario.at_s 0) "jti-9" Scenario.alice.

End Cases.

(** * Properties *)

(** ** The serialisation agrees with published test vectors *)

Example encode_header :
  Base64url.encode (Json.stringify Jwt.header) = "eyJhbGciOiJIUzI1NiIsInR5cCI6IkpXVCJ9".
Proof. reflexivity. Qed.

Example encode_rfc4648 :
  Base64url.encode "foobar" = "Zm9vYmFy" /\ Base64url.encode "fooba" = "Zm9vYmE" /\
  Base64url.encode "foob" = "Zm9vYg".
Proof. repeat split. Qed.

Example encode_jwt_io_payload :
  Base64url.encode
    (Json.stringify [("sub", Json.JStr "1234567890"); ("name", Json.JStr "John Doe");
                     ("iat", Json.JNum 1516239022)])
  = "eyJzdWIiOiIxMjM0NTY3ODkwIiwibmFtZSI6IkpvaG4gRG9lIiwiaWF0IjoxNTE2MjM5MDIyfQ".
Proof. reflexivity. Qed.

(** ** Keys *)

Lemma refresh_key_inj a b :
  TokenService.refresh_key a = TokenService.refresh_key b -> a = b.
Proof. unfold TokenService.refresh_key. apply String.app_inj. Qed.

Lemma blacklist_key_inj a b :
  TokenService.blacklist_key a = TokenService.blacklist_key b -> a = b.
Proof. unfold TokenService.blacklist_key. apply String.app_inj. Qed.

(** Refresh records and revocation entries never share a key. *)
Lemma refresh_key_not_blacklist_key a b :
  TokenService.refresh_key a <> TokenService.blacklist_key b.
Proof. intros E. cbv in E. discriminate E. Qed.

(** ** Reading the promise monad *)

Ltac unfold_promise :=
  unfold bind, ret, throw, try_catch, promise_all, ask.

Ltac unfold_token_service :=
  unfold TokenService.isBlacklisted, TokenService.blacklistToken,
    TokenService.deleteRefreshToken, TokenService.getRefreshToken,
    TokenService.saveRefreshToken, Redis.get, Redis.set, Redis.del.

Ltac unfold_users_service :=
  unfold UsersService.findById, UsersService.findByEmail, UsersService.findOne.

(** ** jsonwebtoken: the two local checks *)
Module JwtFacts.
Section WithCrypto.
Context `{Crypto}.

(** verify succeeds exactly when both checks pass, and then yields the
    token's own payload. *)
Lemma verify_inr t secret now_s p :
  Jwt.verify t secret now_s = inr p <->
  Jwt.signature_ok t secret = true /\ Jwt.expiry_ok t now_s = true /\ Jwt.payload_of t = p.
Proof.
  destruct t as [raw|q s]; simpl.
  - split; [discriminate | intros (E & _); discriminate E].
  - destruct (String.eqb s (hmac secret (Jwt.signing_input q))).
    + destruct (Json.get "exp" q) as [[e|e|e]|]; simpl.
      * split; [discriminate | intros (_ & E & _); discriminate E].
      * destruct (N.leb_spec e now_s) as [L|L].
        -- split; [discriminate|]. intros (_ & E & _).
           apply N.ltb_lt in E. lia.
        -- split.
           ++ intros E. inversion E. repeat split. apply N.ltb_lt. exact L.
           ++ intros (_ & _ & ->). reflexivity.
      * split; [discriminate | intros (_ & E & _); discriminate E].
      * split.
        -- intros E. inversion E. auto.
        -- intros (_ & _ & ->). reflexivity.
    + split; [discriminate | intros (E & _); discriminate E].
Qed.

Lemma verify_inl t secret now_s :
  Jwt.signature_ok t secret && Jwt.expiry_ok t now_s = false ->
  exists e, Jwt.verify t secret now_s = inl e.
Proof.
  intros F. destruct (Jwt.verify t secret now_s) as [e|p] eqn:V.
  - exists e. reflexivity.
  - apply verify_inr in V. destruct V as (A & B & _).
    rewrite A, B in F. discriminate F.
Qed.

(** The signature is checked before the expiry: a forged token is
    reported as forged whether or not it is also out of date. *)
Lemma verify_checks_signature_first t secret now_s :
  Jwt.signature_ok t secret = false ->
  Jwt.verify t secret now_s = inl Jwt.Malformed \/
  Jwt.verify t secret now_s = inl Jwt.InvalidSignature.
Proof.
  destruct t as [raw|q s]; simpl; [now left|].
  intros ->. now right.
Qed.

Lemma get_app k (a b : Json.object) :
  Json.get k (a ++ b)%list =
  match Json.get k a with Some v => Some v | None => Json.get k b end.
Proof.
  induction a as [|[k' v] a IH]; [reflexivity|].
  cbn [Json.get app]. destruct (String.eqb k k'); [reflexivity | exact IH].
Qed.

(** A token the service signs verifies under the same secret until its
    lifetime is over. *)
Lemma verify_sign payload secret ttl t0 t :
  Json.get "exp" payload = None ->
  t < t0 + ttl ->
  Jwt.verify (Jwt.sign payload secret ttl t0) secret t =
  inr (payload ++ [("iat", Json.JNum t0); ("exp", Json.JNum (t0 + ttl))])%list.
Proof.
  intros Hexp Hlt. unfold Jwt.sign, Jwt.verify.
  rewrite String.eqb_refl.
  assert (G : Json.get "exp"
            (payload ++ [("iat", Json.JNum t0); ("exp", Json.JNum (t0 + ttl))])%list
          = Some (Json.JNum (t0 + ttl))).
  { rewrite get_app, Hexp. reflexivity. }
  rewrite G. destruct (N.leb_spec (t0 + ttl) t); [lia | reflexivity].
Qed.

End WithCrypto.
End JwtFacts.


(** ** What the two validation paths compute *)
Module Validation.
Section WithCrypto.
Context `{Crypto}.

(** AuthService.validateToken, as one case analysis. *)
Lemma validateToken_run t env w :
  AuthService.validateToken t env w =
  match Jwt.verify t (accessSecret (config env)) (now_s env) with
  | inl _ => (inr AuthService.invalid, w)
  | inr p =>
      let k := TokenService.blacklist_key (Json.template (Json.get "jti" p)) in
      let w' := Redis.issue (GET k) w in
      if redis_up env then
        match Redis.lookup (now env) k (redis w) with
        | Some _ => (inr AuthService.invalid, w')
        | None => (inr {| AuthService.valid := true; AuthService.payload := Some p |}, w')
        end
      else (inr AuthService.invalid, w')
  end.
Proof.
  unfold AuthService.validateToken. unfold_promise. unfold_token_service.
  unfold_promise.
  destruct (Jwt.verify t (accessSecret (config env)) (now_s env)) as [e|p];
    [reflexivity|].
  cbv zeta. destruct (redis_up env); [|reflexivity].
  destruct (Redis.lookup (now env) _ (redis w)); reflexivity.
Qed.

(** The local guard on a request carrying [t] as bearer token. *)
Lemma guard_run t rt env w :
  JwtStrategy.guard {| Passport.bearer := Some t; Passport.body_refreshToken := rt |} env w =
  match Jwt.verify t (accessSecret (config env)) (now_s env) with
  | inl _ => (inl (UnauthorizedException "Unauthorized"), w)
  | inr p =>
      let k := TokenService.blacklist_key (Json.template (Json.get "jti" p)) in
      let w' := Redis.issue (GET k) w in
      if redis_up env then
        match Redis.lookup (now env) k (redis w) with
        | Some _ => (inl (UnauthorizedException "Token has been revoked"), w')
        | None =>
            match UsersService.select
                    (UsersService.by_id (Json.template (Json.get "sub" p))) w with
            | Some u =>
                if isActive u
                then (inr {| JwtStrategy.p_id := id u; JwtStrategy.p_email := email u;
                             JwtStrategy.p_roles := roles u;
                             JwtStrategy.p_jti := Json.get "jti" p |}, w')
                else (inl (UnauthorizedException "User not found or inactive"), w')
            | None => (inl (UnauthorizedException "User not found or inactive"), w')
            end
        end
      else (inl RedisError, w')
  end.
Proof.
  unfold JwtStrategy.guard, Passport.authenticate, JwtStrategy.validate.
  cbn [Passport.bearer]. unfold_promise. unfold_token_service.
  unfold_users_service. unfold_promise.
  destruct (Jwt.verify t (accessSecret (config env)) (now_s env)) as [e|p];
    [reflexivity|].
  cbv zeta. destruct (redis_up env); [|reflexivity].
  destruct (Redis.lookup (now env) _ (redis w)); [reflexivity|].
  unfold UsersService.select. cbn [users Redis.issue].
  destruct (find _ (users w)) as [u|]; [|reflexivity].
  destruct (isActive u); reflexivity.
Qed.

(** C8.  validateToken checks signature and expiry first and asks the
    token store last: a token that fails the signature or the expiry check
    is answered [{ valid: false }] with the world untouched, so no command
    reaches Redis; a token that passes both costs exactly one GET, of its
    blacklist key. *)
Theorem validateToken_checks_before_store t env w :
  if Jwt.signature_ok t (accessSecret (config env)) && Jwt.expiry_ok t (now_s env)
  then redis_log (snd (AuthService.validateToken t env w)) =
       GET (TokenService.blacklist_key
              (Json.template (Json.get "jti" (Jwt.payload_of t)))) :: redis_log w
  else AuthService.validateToken t env w = (inr AuthService.invalid, w).
Proof.
  rewrite validateToken_run.
  destruct (Jwt.signature_ok t _ && Jwt.expiry_ok t _) eqn:C.
  - apply andb_true_iff in C. destruct C as [S E].
    assert (V : Jwt.verify t (accessSecret (config env)) (now_s env)
                = inr (Jwt.payload_of t)).
    { apply JwtFacts.verify_inr. auto. }
    rewrite V. cbv zeta. destruct (redis_up env); [|reflexivity].
    destruct (Redis.lookup _ _ _); reflexivity.
  - destruct (JwtFacts.verify_inl _ _ _ C) as [e ->]. reflexivity.
Qed.

(** C5.  The remote operations never reject: validateToken always
    resolves to a reply, getUserFromToken resolves to the user reply or to
    the error reply accordingly, and the reply is valid only when Redis
    answered and the token passed signature and expiry checks; malformed
    tokens and an unreachable store both end in [{ valid: false }]. *)
Theorem remote_validation_never_throws t env w :
  exists r w',
    AuthMicroserviceController.validateToken t env w = (inr r, w') /\
    AuthMicroserviceController.getUserFromToken t env w =
      (inr (if AuthService.valid r
            then AuthMicroserviceController.UserReply (AuthService.payload r)
            else AuthMicroserviceController.ErrorReply "Invalid or expired token"),
       w') /\
    (AuthService.valid r = false \/
     (redis_up env = true /\
      Jwt.signature_ok t (accessSecret (config env)) = true /\
      Jwt.expiry_ok t (now_s env) = true)).
Proof.
  unfold AuthMicroserviceController.validateToken,
    AuthMicroserviceController.getUserFromToken, bind.
  rewrite validateToken_run.
  destruct (Jwt.verify t (accessSecret (config env)) (now_s env)) as [e|p] eqn:V.
  - eexists _, _. split; [reflexivity|]. split; [reflexivity|]. now left.
  - apply JwtFacts.verify_inr in V. destruct V as (S & E & _).
    cbv zeta. destruct (redis_up env).
    + destruct (Redis.lookup _ _ _).
      * eexists _, _. split; [reflexivity|]. split; [reflexivity|]. now left.
      * eexists _, _. split; [reflexivity|]. split; [reflexivity|]. right. auto.
    + eexists _, _. split; [reflexivity|]. split; [reflexivity|]. now left.
Qed.

End WithCrypto.
End Validation.


(** ** The local guard and the user directory *)
Module LocalGuard.
Section WithCrypto.
Context `{Crypto}.

(** C10.  The local guard turns away an access token whose subject is
    missing from the user directory or is not active: it never yields a
    principal, and for a token that is well signed, unexpired and not
    blacklisted, with Redis answering, the rejection is the
    UnauthorizedException "User not found or inactive". *)
Theorem guard_rejects_missing_or_inactive_subject t rt env w :
  UsersService.active_subject
    (Json.template (Json.get "sub" (Jwt.payload_of t))) w = false ->
  exists e w',
    JwtStrategy.guard {| Passport.bearer := Some t; Passport.body_refreshToken := rt |}
      env w = (inl e, w') /\
    (Jwt.signature_ok t (accessSecret (config env)) = true ->
     Jwt.expiry_ok t (now_s env) = true ->
     redis_up env = true ->
     Redis.lookup (now env)
       (TokenService.blacklist_key (Json.template (Json.get "jti" (Jwt.payload_of t))))
       (redis w) = None ->
     e = UnauthorizedException "User not found or inactive").
Proof.
  intros A. rewrite Validation.guard_run.
  destruct (Jwt.verify t (accessSecret (config env)) (now_s env)) as [e|p] eqn:V.
  - eexists _, _. split; [reflexivity|]. intros S E.
    assert (V' : Jwt.verify t (accessSecret (config env)) (now_s env)
                 = inr (Jwt.payload_of t)) by (apply JwtFacts.verify_inr; auto).
    rewrite V' in V. discriminate V.
  - apply JwtFacts.verify_inr in V. destruct V as (_ & _ & <-).
    cbv zeta. unfold UsersService.active_subject in A.
    destruct (redis_up env).
    + destruct (Redis.lookup _ _ _) eqn:L.
      * eexists _, _. split; [reflexivity|]. intros _ _ _ L'. discriminate L'.
      * destruct (UsersService.select _ w) as [u|].
        -- rewrite A. eexists _, _. split; reflexivity.
        -- eexists _, _. split; reflexivity.
    + eexists _, _. split; [reflexivity|]. intros _ _ U. discriminate U.
Qed.

(** C9, as the code has it.  The guard accepts a bearer token exactly when
    validateToken answers valid for it and the subject it names is an
    active user of the directory; both leave the world in the same state.
    The principal takes id, email and roles from the directory row and the
    token id from the token. *)
Theorem guard_accepts_iff t rt env w pr w' :
  JwtStrategy.guard {| Passport.bearer := Some t; Passport.body_refreshToken := rt |}
    env w = (inr pr, w') <->
  exists p u,
    AuthService.validateToken t env w =
      (inr {| AuthService.valid := true; AuthService.payload := Some p |}, w') /\
    UsersService.select (UsersService.by_id (Json.template (Json.get "sub" p))) w = Some u /\
    isActive u = true /\
    pr = {| JwtStrategy.p_id := id u; JwtStrategy.p_email := email u;
            JwtStrategy.p_roles := roles u; JwtStrategy.p_jti := Json.get "jti" p |}.
Proof.
  rewrite Validation.guard_run, Validation.validateToken_run.
  destruct (Jwt.verify t (accessSecret (config env)) (now_s env)) as [e|p].
  { split; [discriminate|]. intros (p & u & E & _). discriminate E. }
  cbv zeta. destruct (redis_up env).
  2:{ split; [discriminate|]. intros (q & u & E & _). discriminate E. }
  destruct (Redis.lookup _ _ _).
  { split; [discriminate|]. intros (q & u & E & _). discriminate E. }
  split.
  - destruct (UsersService.select _ w) as [u|] eqn:S; [|discriminate].
    destruct (isActive u) eqn:A; [|discriminate].
    intros E. inversion E; subst. exists p, u. repeat split; auto.
  - intros (q & u & E & S & A & ->). inversion E; subst.
    rewrite S, A. reflexivity.
Qed.

End WithCrypto.

(** Bob's account is deactivated; a token signed for him shows C10 at
    work. *)
Lemma guard_rejects_missing_or_inactive_subject_witness :
  exists e w',
    JwtStrategy.guard (Passport.bearer_request Scenario.bob_at) (Scenario.at_s 10)
      Scenario.world0 = (inl e, w') /\
    (Jwt.signature_ok Scenario.bob_at (accessSecret (config (Scenario.at_s 10))) = true ->
     Jwt.expiry_ok Scenario.bob_at (now_s (Scenario.at_s 10)) = true ->
     redis_up (Scenario.at_s 10) = true ->
     Redis.lookup (now (Scenario.at_s 10))
       (TokenService.blacklist_key
          (Json.template (Json.get "jti" (Jwt.payload_of Scenario.bob_at))))
       (redis Scenario.world0) = None ->
     e = UnauthorizedException "User not found or inactive").
Proof.
  apply (guard_rejects_missing_or_inactive_subject Scenario.bob_at None
           (Scenario.at_s 10) Scenario.world0).
  vm_compute. reflexivity.
Defined.

(** The claim C9 fails where the two paths part: the remote operation
    answers valid for Bob's token, the local guard rejects it. *)
Lemma remote_accepts_what_guard_rejects :
  (exists p w',
     AuthMicroserviceController.validateToken Scenario.bob_at (Scenario.at_s 10)
       Scenario.world0
     = (inr {| AuthService.valid := true; AuthService.payload := Some p |}, w')) /\
  (exists w',
     JwtStrategy.guard (Passport.bearer_request Scenario.bob_at) (Scenario.at_s 10)
       Scenario.world0
     = (inl (UnauthorizedException "User not found or inactive"), w')).
Proof.
  split.
  - eexists _, _. vm_compute. reflexivity.
  - eexists. vm_compute. reflexivity.
Qed.

End LocalGuard.


(** ** Redis keys under SET and DEL *)
Module RedisFacts.

Lemma lookup_insert_same t k e (m : gmap string entry) :
  Redis.lookup t k (<[k := e]> m) = if Redis.live t e then Some (value e) else None.
Proof. unfold Redis.lookup. rewrite lookup_insert_eq. reflexivity. Qed.

Lemma lookup_insert_other t k k' e (m : gmap string entry) :
  k' <> k -> Redis.lookup t k (<[k' := e]> m) = Redis.lookup t k m.
Proof. intros N. unfold Redis.lookup. rewrite lookup_insert_ne by exact N. reflexivity. Qed.

Lemma lookup_delete_same t k (m : gmap string entry) :
  Redis.lookup t k (delete k m) = None.
Proof. unfold Redis.lookup. rewrite lookup_delete_eq. reflexivity. Qed.

Lemma lookup_delete_other t k k' (m : gmap string entry) :
  k' <> k -> Redis.lookup t k (delete k' m) = Redis.lookup t k m.
Proof. intros N. unfold Redis.lookup. rewrite lookup_delete_ne by exact N. reflexivity. Qed.

End RedisFacts.

(** ** Issuing and revoking *)
Module Lifecycle.
Section WithCrypto.
Context `{Crypto}.

(** generateTokens: one SET of the subject's refresh key, holding the
    bcrypt hash of the new refresh token for seven days. *)
Lemma generateTokens_run jti salt u env w :
  AuthService.generateTokens jti salt u env w =
  let hashed :=
    Bcrypt.hash salt (Jwt.compact (AuthService.signRefresh env u)) in
  let k := TokenService.refresh_key (id u) in
  let w' := Redis.issue (SET k hashed 604800) w in
  if redis_up env then
    (inr {| AuthService.accessToken := AuthService.signAccess env jti u;
            AuthService.refreshToken := AuthService.signRefresh env u;
            AuthService.user :=
              {| AuthService.pu_id := id u; AuthService.pu_email := email u;
                 AuthService.pu_roles := roles u |} |},
     Redis.store
       (<[k := {| value := hashed; expires_at := now env + 1000 * 604800 |}]> (redis w))
       w')
  else (inl RedisError, w').
Proof.
  unfold AuthService.generateTokens. unfold_promise. unfold_token_service.
  unfold TokenService.default_ttlSeconds. cbv zeta.
  destruct (redis_up env); reflexivity.
Qed.

(** logout: SET of the blacklist key for [accessTtl] seconds, then DEL of
    the refresh key. *)
Lemma logout_run userId jti env w :
  AuthService.logout userId jti env w =
  let bk := TokenService.blacklist_key jti in
  let rk := TokenService.refresh_key userId in
  let w1 := Redis.issue (SET bk "1" 900) w in
  if redis_up env then
    (inr {| AuthService.message := "Logged out successfully" |},
     Redis.store
       (delete rk (<[bk := {| value := "1"; expires_at := now env + 1000 * 900 |}]> (redis w)))
       (Redis.issue (DEL rk) w1))
  else (inl RedisError, Redis.issue (DEL rk) w1).
Proof.
  unfold AuthService.logout, AuthService.accessTtl. unfold_promise.
  unfold_token_service. cbv zeta.
  destruct (redis_up env); reflexivity.
Qed.

(** The access token of [generateTokens] verifies at once, with the
    subject's claims in its payload. *)
Lemma verify_signAccess env jti u :
  0 < accessExpiresIn (config env) ->
  Jwt.verify (AuthService.signAccess env jti u) (accessSecret (config env)) (now_s env) =
  inr (AuthService.accessPayload jti u ++
       [("iat", Json.JNum (now_s env));
        ("exp", Json.JNum (now_s env + accessExpiresIn (config env)))])%list.
Proof.
  intros P. unfold AuthService.signAccess.
  apply JwtFacts.verify_sign; [reflexivity | lia].
Qed.

(** C7.  Round trip.  With Redis answering, a positive access lifetime
    and a token id that is not on the blacklist (uuidv4 draws a new one),
    generateTokens succeeds and validateToken, called at once on the
    access token it returned, answers valid with the payload that was
    signed: its sub, email and roles are the subject's id, email and
    roles, followed by the token id, iat and exp. *)
Theorem issue_then_validate jti salt u env w :
  redis_up env = true ->
  0 < accessExpiresIn (config env) ->
  Redis.lookup (now env) (TokenService.blacklist_key jti) (redis w) = None ->
  exists tk w1 p w2,
    AuthService.generateTokens jti salt u env w = (inr tk, w1) /\
    AuthService.validateToken (AuthService.accessToken tk) env w1 =
      (inr {| AuthService.valid := true; AuthService.payload := Some p |}, w2) /\
    p = (AuthService.accessPayload jti u ++
         [("iat", Json.JNum (now_s env));
          ("exp", Json.JNum (now_s env + accessExpiresIn (config env)))])%list /\
    Json.get "sub" p = Some (Json.JStr (id u)) /\
    Json.get "email" p = Some (Json.JStr (email u)) /\
    Json.get "roles" p = Some (Json.JArr (roles u)).
Proof.
  intros U P F.
  rewrite generateTokens_run, U. cbv zeta.
  eexists _, _, _, _. split; [reflexivity|].
  cbn [AuthService.accessToken]. rewrite Validation.validateToken_run.
  rewrite (verify_signAccess env jti u P), U. cbv zeta.
  replace (Json.template (Json.get "jti" _)) with jti by reflexivity.
  cbn [redis Redis.store Redis.issue].
  rewrite RedisFacts.lookup_insert_other
    by apply refresh_key_not_blacklist_key.
  rewrite F. repeat split; reflexivity.
Qed.

End WithCrypto.

Lemma issue_then_validate_witness :
  exists tk w1 p w2,
    AuthService.generateTokens "jti-1" Scenario.salt1 Scenario.alice
      (Scenario.at_s 0) Scenario.world0 = (inr tk, w1) /\
    AuthService.validateToken (AuthService.accessToken tk) (Scenario.at_s 0) w1 =
      (inr {| AuthService.valid := true; AuthService.payload := Some p |}, w2) /\
    p = (AuthService.accessPayload "jti-1" Scenario.alice ++
         [("iat", Json.JNum (now_s (Scenario.at_s 0)));
          ("exp", Json.JNum (now_s (Scenario.at_s 0)
                             + accessExpiresIn (config (Scenario.at_s 0))))])%list /\
    Json.get "sub" p = Some (Json.JStr (id Scenario.alice)) /\
    Json.get "email" p = Some (Json.JStr (email Scenario.alice)) /\
    Json.get "roles" p = Some (Json.JArr (roles Scenario.alice)).
Proof.
  apply (issue_then_validate "jti-1" Scenario.salt1 Scenario.alice
           (Scenario.at_s 0) Scenario.world0).
  - reflexivity.
  - vm_compute. reflexivity.
  - vm_compute. reflexivity.
Defined.

End Lifecycle.


(** ** Logout *)
Module Revocation.
Section WithCrypto.
Context `{Crypto}.

(** What logout leaves in Redis. *)
Lemma logout_effect userId jti env w :
  redis_up env = true ->
  exists w',
    AuthService.logout userId jti env w =
      (inr {| AuthService.message := "Logged out successfully" |}, w') /\
    redis w' =
      delete (TokenService.refresh_key userId)
        (<[TokenService.blacklist_key jti :=
             {| value := "1"; expires_at := now env + 900000 |}]> (redis w)) /\
    users w' = users w.
Proof.
  intros U. rewrite Lifecycle.logout_run, U. cbv zeta.
  eexists. split; [reflexivity|]. split; reflexivity.
Qed.

(** After logout the token id reads as blacklisted at every instant before
    the entry expires. *)
Lemma blacklisted_after_logout userId jti env w w' m t :
  AuthService.logout userId jti env w = (inr m, w') ->
  t < now env + 900000 ->
  Redis.lookup t (TokenService.blacklist_key jti) (redis w') = Some "1".
Proof.
  intros L T. rewrite Lifecycle.logout_run in L. cbv zeta in L.
  destruct (redis_up env); [|discriminate L].
  inversion L; subst. cbn [redis Redis.store].
  rewrite RedisFacts.lookup_delete_other
    by apply refresh_key_not_blacklist_key.
  rewrite RedisFacts.lookup_insert_same. unfold Redis.live. cbn [expires_at value].
  destruct (N.ltb_spec t (now env + 1000 * 900)); [reflexivity | lia].
Qed.

(** A token still accepted by verify at clock [t] has an [exp] beyond
    [t]. *)
Lemma verified_token_not_expired tok secret p e t :
  Jwt.verify tok secret (t / 1000) = inr p ->
  Json.get "exp" p = Some (Json.JNum e) ->
  t < 1000 * e.
Proof.
  intros V G. apply JwtFacts.verify_inr in V. destruct V as (_ & E & P).
  destruct tok as [raw|q s]; [discriminate E|].
  cbn [Jwt.expiry_ok Jwt.payload_of] in *. subst q. rewrite G in E.
  apply N.ltb_lt in E.
  pose proof (N.mul_succ_div_gt t 1000 ltac:(lia)). nia.
Qed.

(** C2, as the code has it.  After logout(sub, tid), validateToken answers
    [{ valid: false }] for a well-signed, unexpired access token carrying
    tid whenever it is called less than 900 seconds after the logout; a
    token that had at most 900 seconds to live at logout is therefore
    never valid again. *)
Theorem logout_revokes userId tok p env env' w :
  redis_up env = true ->
  Jwt.verify tok (accessSecret (config env')) (now_s env') = inr p ->
  (now env' < now env + 900000 \/
   exists e, Json.get "exp" p = Some (Json.JNum e) /\ 1000 * e <= now env + 900000) ->
  exists m w1 w2,
    AuthService.logout userId (Json.template (Json.get "jti" p)) env w = (inr m, w1) /\
    AuthService.validateToken tok env' w1 = (inr AuthService.invalid, w2).
Proof.
  intros U V W.
  assert (T : now env' < now env + 900000).
  { destruct W as [W|(e & G & B)]; [exact W|].
    pose proof (verified_token_not_expired _ _ _ _ _ V G). lia. }
  destruct (logout_effect userId (Json.template (Json.get "jti" p)) env w U)
    as (w1 & L & _).
  eexists _, w1, _. split; [exact L|].
  rewrite Validation.validateToken_run, V. cbv zeta.
  rewrite (blacklisted_after_logout _ _ _ _ _ _ _ L T).
  destruct (redis_up env'); reflexivity.
Qed.

(** C4, as the code has it.  logout blacklists the token id for 900
    seconds from the call, whatever access lifetime is configured and
    however long the token still has to live, and deletes the subject's
    refresh record; no other key changes. *)
Theorem logout_blacklists_for_900_seconds userId jti env w :
  redis_up env = true ->
  exists w',
    AuthService.logout userId jti env w =
      (inr {| AuthService.message := "Logged out successfully" |}, w') /\
    redis w' !! TokenService.blacklist_key jti =
      Some {| value := "1"; expires_at := now env + 900000 |} /\
    redis w' !! TokenService.refresh_key userId = None /\
    forall k, k <> TokenService.blacklist_key jti ->
              k <> TokenService.refresh_key userId ->
              redis w' !! k = redis w !! k.
Proof.
  intros U. destruct (logout_effect userId jti env w U) as (w' & L & R & _).
  exists w'. split; [exact L|]. rewrite R. split; [|split].
  - rewrite lookup_delete_ne by apply refresh_key_not_blacklist_key.
    apply lookup_insert_eq.
  - apply lookup_delete_eq.
  - intros k N1 N2. rewrite lookup_delete_ne by congruence.
    apply lookup_insert_ne. congruence.
Qed.

(** C6, as the code has it.  With Redis answering, logout can be repeated
    without error.  The second call changes one thing: it restarts the
    900 seconds of the revocation entry.  So the store after both calls
    is the store a single logout at the time of the second call would
    leave, and it is the store after the first call when both calls read
    the same clock. *)
Theorem logout_twice userId jti env1 env2 w :
  redis_up env1 = true ->
  redis_up env2 = true ->
  exists m w1 w2 w2',
    AuthService.logout userId jti env1 w = (inr m, w1) /\
    AuthService.logout userId jti env2 w1 = (inr m, w2) /\
    AuthService.logout userId jti env2 w = (inr m, w2') /\
    redis w2 = redis w2' /\
    users w2 = users w1 /\
    redis w2 =
      <[TokenService.blacklist_key jti :=
          {| value := "1"; expires_at := now env2 + 900000 |}]> (redis w1) /\
    (now env1 = now env2 -> redis w2 = redis w1).
Proof.
  intros U1 U2.
  destruct (logout_effect userId jti env1 w U1) as (w1 & L1 & R1 & S1).
  destruct (logout_effect userId jti env2 w1 U2) as (w2 & L2 & R2 & S2).
  destruct (logout_effect userId jti env2 w U2) as (w2' & L2' & R2' & S2').
  exists {| AuthService.message := "Logged out successfully" |}, w1, w2, w2'.
  pose proof (refresh_key_not_blacklist_key userId jti) as NE.
  assert (E : redis w2 =
              <[TokenService.blacklist_key jti :=
                  {| value := "1"; expires_at := now env2 + 900000 |}]> (redis w1)).
  { rewrite R2, R1. apply map_eq. intros k.
    rewrite !lookup_delete, !lookup_insert, !lookup_delete, !lookup_insert.
    repeat case_decide; congruence. }
  repeat split; try assumption.
  - rewrite R2, R2', R1. apply map_eq. intros k.
    rewrite !lookup_delete, !lookup_insert, !lookup_delete, !lookup_insert.
    repeat case_decide; congruence.
  - intros T. rewrite E, R1, T. apply map_eq. intros k.
    rewrite !lookup_insert, !lookup_delete, !lookup_insert.
    repeat case_decide; congruence.
Qed.

End WithCrypto.

Lemma logout_revokes_witness :
  exists m w1 w2,
    AuthService.logout (id Scenario.alice)
      (Json.template (Json.get "jti" (Jwt.payload_of Scenario.at1)))
      (Scenario.at_s 600) Scenario.world1 = (inr m, w1) /\
    AuthService.validateToken Scenario.at1 (Scenario.at_s 700) w1 =
      (inr AuthService.invalid, w2).
Proof.
  apply (logout_revokes (id Scenario.alice) Scenario.at1
           (Jwt.payload_of Scenario.at1) (Scenario.at_s 600) (Scenario.at_s 700)
           Scenario.world1).
  - reflexivity.
  - vm_compute. reflexivity.
  - left. vm_compute. reflexivity.
Defined.

(** The claim C2 fails for a token that outlives the revocation entry:
    with one-hour access tokens, a token revoked at [t0 + 60 s] is
    answered valid again at [t0 + 1000 s]. *)
Lemma logout_wears_off_before_token_expires :
  (exists m,
     fst (AuthService.logout (id Scenario.alice) "jti-1" (Scenario.at_s_1h 60)
            Scenario.world0) = inr m) /\
  Json.template (Json.get "jti" (Jwt.payload_of Scenario.at1_1h)) = "jti-1" /\
  (exists p w',
     AuthService.validateToken Scenario.at1_1h (Scenario.at_s_1h 1000)
       Scenario.world_out_1h
     = (inr {| AuthService.valid := true; AuthService.payload := Some p |}, w')).
Proof.
  split; [|split].
  - eexists. vm_compute. reflexivity.
  - vm_compute. reflexivity.
  - eexists _, _. vm_compute. reflexivity.
Qed.

Lemma logout_blacklists_for_900_seconds_witness :
  exists w',
    AuthService.logout (id Scenario.alice) "jti-1" (Scenario.at_s 600) Scenario.world1 =
      (inr {| AuthService.message := "Logged out successfully" |}, w') /\
    redis w' !! TokenService.blacklist_key "jti-1" =
      Some {| value := "1"; expires_at := now (Scenario.at_s 600) + 900000 |} /\
    redis w' !! TokenService.refresh_key (id Scenario.alice) = None /\
    forall k, k <> TokenService.blacklist_key "jti-1" ->
              k <> TokenService.refresh_key (id Scenario.alice) ->
              redis w' !! k = redis Scenario.world1 !! k.
Proof.
  apply (logout_blacklists_for_900_seconds (id Scenario.alice) "jti-1"
           (Scenario.at_s 600) Scenario.world1).
  reflexivity.
Defined.

(** The claim C4 fails on a token with less than 900 seconds left: Alice's
    token, signed at [t0] for 900 seconds and revoked at [t0 + 600 s], has
    expired at [t0 + 1000 s] while its revocation entry is still there.
    The command sent was SET .. EX 900, not EX 300. *)
Lemma revocation_entry_outlives_token :
  Jwt.verify Scenario.at1 (accessSecret Scenario.cfg) (now_s (Scenario.at_s 1000))
    = inl Jwt.TokenExpired /\
  Redis.lookup (now (Scenario.at_s 1000)) (TokenService.blacklist_key "jti-1")
    (redis Scenario.world_out) = Some "1" /\
  nth_error (redis_log Scenario.world_out) 1
    = Some (SET (TokenService.blacklist_key "jti-1") "1" 900).
Proof. repeat split; vm_compute; reflexivity. Qed.

Lemma logout_twice_witness :
  exists m w1 w2 w2',
    AuthService.logout (id Scenario.alice) "jti-1" (Scenario.at_s 600) Scenario.world1
      = (inr m, w1) /\
    AuthService.logout (id Scenario.alice) "jti-1" (Scenario.at_s 900) w1 = (inr m, w2) /\
    AuthService.logout (id Scenario.alice) "jti-1" (Scenario.at_s 900) Scenario.world1
      = (inr m, w2') /\
    redis w2 = redis w2' /\
    users w2 = users w1 /\
    redis w2 =
      <[TokenService.blacklist_key "jti-1" :=
          {| value := "1"; expires_at := now (Scenario.at_s 900) + 900000 |}]> (redis w1) /\
    (now (Scenario.at_s 600) = now (Scenario.at_s 900) -> redis w2 = redis w1).
Proof.
  apply (logout_twice (id Scenario.alice) "jti-1" (Scenario.at_s 600)
           (Scenario.at_s 900) Scenario.world1); reflexivity.
Defined.

(** The claim C6 fails on the expirations: at [t0 + 1600 s] the token id is
    off the blacklist after one logout (at [t0 + 600 s]) and still on it
    after a second one (at [t0 + 900 s]). *)
Lemma second_logout_extends_revocation :
  Redis.lookup (now (Scenario.at_s 1600)) (TokenService.blacklist_key "jti-1")
    (redis Scenario.world_out) = None /\
  Redis.lookup (now (Scenario.at_s 1600)) (TokenService.blacklist_key "jti-1")
    (redis Scenario.world_out_twice) = Some "1" /\
  redis Scenario.world_out_twice <> redis Scenario.world_out.
Proof.
  assert (A : Redis.lookup (now (Scenario.at_s 1600))
                (TokenService.blacklist_key "jti-1") (redis Scenario.world_out) = None)
    by (vm_compute; reflexivity).
  assert (B : Redis.lookup (now (Scenario.at_s 1600))
                (TokenService.blacklist_key "jti-1") (redis Scenario.world_out_twice)
              = Some "1")
    by (vm_compute; reflexivity).
  split; [exact A | split; [exact B |]].
  intros E. rewrite E, A in B. discriminate B.
Qed.

End Revocation.


(** ** Texts, base64url and the first 72 bytes of a refresh token *)
Module TextFacts.

Lemma app_cons c (a b : string) : String c a +:+ b = String c (a +:+ b).
Proof. reflexivity. Qed.

Lemma app_assoc (a b c : string) : (a +:+ b) +:+ c = a +:+ (b +:+ c).
Proof.
  induction a as [|x a IH]; [reflexivity|].
  rewrite !app_cons, IH. reflexivity.
Qed.

Lemma length_app (a b : string) :
  String.length (a +:+ b) = (String.length a + String.length b)%nat.
Proof.
  induction a as [|x a IH]; [reflexivity|].
  rewrite app_cons. cbn [String.length]. rewrite IH. reflexivity.
Qed.

Lemma take_drop n (s : string) : take n s +:+ drop n s = s.
Proof.
  revert s. induction n as [|n IH]; intros [|c s]; try reflexivity.
  cbn [take drop]. rewrite app_cons, IH. reflexivity.
Qed.

Lemma length_take n (s : string) :
  (n <= String.length s)%nat -> String.length (take n s) = n.
Proof.
  revert s. induction n as [|n IH]; intros [|c s] L; cbn in *; try reflexivity; try lia.
  rewrite IH by lia. reflexivity.
Qed.

(** Beyond the length of [a], what follows [a] does not show in a prefix. *)
Lemma take_app_le n (a b : string) :
  (n <= String.length a)%nat -> take n (a +:+ b) = take n a.
Proof.
  revert a. induction n as [|n IH]; intros a L; [reflexivity|].
  destruct a as [|c a]; [cbn in L; lia|].
  rewrite app_cons. cbn [take]. rewrite IH by (cbn in L; lia). reflexivity.
Qed.

Lemma take_length_app (a b : string) : take (String.length a) (a +:+ b) = a.
Proof.
  induction a as [|c a IH]; cbn [String.length].
  - destruct b; reflexivity.
  - rewrite app_cons. cbn [take]. rewrite IH. reflexivity.
Qed.

(** base64url works on groups of three bytes: after a whole number of
    groups the encoding of what follows is simply appended. *)
Lemma encode_app k : forall a b : string,
  String.length a = (3 * k)%nat ->
  Base64url.encode (a +:+ b) = Base64url.encode a +:+ Base64url.encode b.
Proof.
  induction k as [|k IH]; intros a b L.
  - destruct a; [reflexivity | discriminate L].
  - destruct a as [|x [|y [|z a]]]; try (cbn in L; lia).
    rewrite !app_cons. cbn [Base64url.encode]. cbv zeta.
    rewrite !app_cons. rewrite IH by (cbn in L; lia). reflexivity.
Qed.

Lemma length_encode k : forall a : string,
  String.length a = (3 * k)%nat ->
  String.length (Base64url.encode a) = (4 * k)%nat.
Proof.
  induction k as [|k IH]; intros a L.
  - destruct a; [reflexivity | discriminate L].
  - destruct a as [|x [|y [|z a]]]; try (cbn in L; lia).
    cbn [Base64url.encode]. cbv zeta. cbn [String.length].
    rewrite IH by (cbn in L; lia). lia.
Qed.

(** Escaping never shortens a text. *)
Lemma length_escape_char c : (1 <= String.length (Json.escape_char c))%nat.
Proof.
  unfold Json.escape_char. cbv zeta.
  repeat match goal with
         | |- context [if ?b then _ else _] => destruct b
         end; rewrite ?length_app; cbn; lia.
Qed.

Lemma length_escape (s : string) :
  (String.length s <= String.length (Json.escape s))%nat.
Proof.
  induction s as [|c s IH]; [reflexivity|].
  cbn [Json.escape String.length]. rewrite length_app.
  pose proof (length_escape_char c). lia.
Qed.

End TextFacts.


(** ** Refresh tokens under bcrypt *)
Module RefreshFacts.
Section WithCrypto.
Context `{Crypto}.

(** The payload of a refresh token, split after the 27 bytes that end with
    the 19th character of the subject id. *)
Lemma stringify_refresh_payload i (a b : N) :
  (19 <= String.length i)%nat ->
  exists rest,
    Json.stringify [("sub", Json.JStr i); ("iat", Json.JNum a); ("exp", Json.JNum b)] =
    (RefreshToken.payload_opening +:+ take 19 (Json.escape i)) +:+ rest.
Proof.
  intros L.
  exists (drop 19 (Json.escape i) +:+ dq +:+ "," +:+
          (Json.stringify_field ("iat", Json.JNum a) +:+ "," +:+
           Json.stringify_field ("exp", Json.JNum b)) +:+ "}").
  pose proof (TextFacts.take_drop 19 (Json.escape i)) as E.
  set (e := Json.escape i) in *.
  remember (take 19 e) as x eqn:Ex. remember (drop 19 e) as y eqn:Ey.
  unfold Json.stringify. cbn [map Json.join].
  unfold Json.stringify_field at 1. cbn [fst snd Json.stringify_value].
  unfold Json.quote. change (Json.escape "sub") with "sub".
  fold e. rewrite <- E. unfold RefreshToken.payload_opening.
  rewrite !TextFacts.app_assoc. reflexivity.
Qed.

(** The first 72 bytes of a refresh token depend on the subject id alone:
    not on the time it was signed, its lifetime, the secret or the
    signature. *)
Lemma head_of_refresh_token i secret ttl t :
  (19 <= String.length i)%nat ->
  take 72 (Jwt.compact (Jwt.sign [("sub", Json.JStr i)] secret ttl t)) =
  RefreshToken.head i.
Proof.
  intros L. unfold Jwt.sign. cbn [app]. cbv zeta. cbn [Jwt.compact].
  unfold Jwt.signing_input.
  destruct (stringify_refresh_payload i t (t + ttl) L) as (rest & ->).
  assert (L27 : String.length (RefreshToken.payload_opening +:+ take 19 (Json.escape i))
                = (3 * 9)%nat).
  { rewrite TextFacts.length_app, TextFacts.length_take.
    - reflexivity.
    - pose proof (TextFacts.length_escape i). lia. }
  rewrite (TextFacts.encode_app 9 _ _ L27).
  unfold RefreshToken.head.
  set (h := Base64url.encode (Json.stringify Jwt.header)).
  set (x := Base64url.encode (RefreshToken.payload_opening +:+ take 19 (Json.escape i))).
  assert (Lx : String.length x = 36%nat) by (apply (TextFacts.length_encode 9); exact L27).
  replace ((h +:+ "." +:+ x +:+ Base64url.encode rest) +:+ "." +:+
           hmac secret (h +:+ "." +:+ x +:+ Base64url.encode rest))
    with ((h +:+ "." +:+ x) +:+
          (Base64url.encode rest +:+ "." +:+
           hmac secret (h +:+ "." +:+ x +:+ Base64url.encode rest)))
    by (rewrite !TextFacts.app_assoc; reflexivity).
  assert (Lh : String.length h = 36%nat) by (vm_compute; reflexivity).
  apply TextFacts.take_app_le.
  rewrite !TextFacts.length_app, Lx, Lh. cbn. lia.
Qed.

(** bcrypt.compare accepts every text that shares its first 72 bytes with
    the hashed one. *)
Lemma compare_same_head salt (s s' : string) :
  String.length salt = Bcrypt.salt_length ->
  take Bcrypt.max_input s = take Bcrypt.max_input s' ->
  Bcrypt.compare s (Bcrypt.hash salt s') = true.
Proof.
  intros L E. unfold Bcrypt.compare.
  assert (T : take Bcrypt.salt_length (Bcrypt.hash salt s') = salt).
  { unfold Bcrypt.hash. rewrite <- L. apply TextFacts.take_length_app. }
  rewrite T. unfold Bcrypt.hash. rewrite E. apply String.eqb_refl.
Qed.

End WithCrypto.

(** Alice's refresh tokens all start with these 72 bytes: the header, a
    dot, and 35 characters that encode the payload up to the 18th
    character of her id. *)
Example head_of_alice :
  RefreshToken.head (id Scenario.alice) =
  "eyJhbGciOiJIUzI1NiIsInR5cCI6IkpXVCJ9.eyJzdWIiOiIzZjJiOGMxZS03YTRkLTRlOWI" /\
  take 72 (Jwt.compact Scenario.rt1) = RefreshToken.head (id Scenario.alice) /\
  take 72 (Jwt.compact Scenario.rt2) = RefreshToken.head (id Scenario.alice).
Proof. repeat split; vm_compute; reflexivity. Qed.

End RefreshFacts.


(** ** Refresh and rotation

    POST /auth/refresh runs the jwt-refresh guard on the request body and
    hands the user the guard yields to AuthService.refresh; the statements
    below spell out these two steps. *)
Module Rotation.
Section WithCrypto.
Context `{Crypto}.

(** The jwt-refresh guard on a request whose body carries [rt]. *)
Lemma refresh_guard_run rt env w :
  JwtRefreshStrategy.guard (Passport.body_request rt) env w =
  match Jwt.verify rt (refreshSecret (config env)) (now_s env) with
  | inl _ => (inl (UnauthorizedException "Unauthorized"), w)
  | inr p =>
      let sub := Json.template (Json.get "sub" p) in
      let w' := Redis.issue (GET (TokenService.refresh_key sub)) w in
      if redis_up env then
        match Redis.lookup (now env) (TokenService.refresh_key sub) (redis w) with
        | None | Some EmptyString =>
            (inl (UnauthorizedException "Refresh token expired or not found"), w')
        | Some stored =>
            if Bcrypt.compare (Jwt.compact rt) stored then
              match UsersService.select (UsersService.by_id sub) w with
              | None => (inl (UnauthorizedException "User not found"), w')
              | Some u => (inr u, w')
              end
            else (inl (UnauthorizedException "Invalid refresh token"), w')
        end
      else (inl RedisError, w')
  end.
Proof.
  unfold JwtRefreshStrategy.guard, Passport.authenticate, JwtRefreshStrategy.validate.
  cbn [Passport.body_refreshToken Passport.body_request].
  unfold_promise. unfold_token_service. unfold_users_service. unfold_promise.
  destruct (Jwt.verify rt (refreshSecret (config env)) (now_s env)) as [e|p];
    [reflexivity|].
  cbv zeta. destruct (redis_up env); [|reflexivity].
  destruct (Redis.lookup (now env) _ (redis w)) as [[|c stored]|]; try reflexivity.
  destruct (Bcrypt.compare _ _); [|reflexivity].
  unfold UsersService.select. cbn [users Redis.issue].
  destruct (find _ (users w)); reflexivity.
Qed.

(** Whatever the subject's refresh key held, after an issuance it holds the
    hash of the refresh token just minted, for seven days; no other key and
    no user row changes. *)
Lemma issuance_overwrites_record jti salt u env w tk w' :
  AuthService.generateTokens jti salt u env w = (inr tk, w') ->
  redis w' !! TokenService.refresh_key (id u) =
    Some {| value := Bcrypt.hash salt (Jwt.compact (AuthService.refreshToken tk));
            expires_at := now env + 1000 * 604800 |} /\
  (forall k, k <> TokenService.refresh_key (id u) -> redis w' !! k = redis w !! k) /\
  users w' = users w /\
  AuthService.refreshToken tk = AuthService.signRefresh env u.
Proof.
  rewrite Lifecycle.generateTokens_run. cbv zeta.
  destruct (redis_up env); [|discriminate].
  intros E. inversion E; subst. cbn [redis Redis.store AuthService.refreshToken].
  repeat split.
  - apply lookup_insert_eq.
  - intros k N. apply lookup_insert_ne. congruence.
Qed.

(** With Redis answering an issuance always goes through. *)
Lemma issuance_succeeds jti salt u cfg t w :
  exists tk w', AuthService.generateTokens jti salt u (online cfg t) w = (inr tk, w').
Proof. rewrite Lifecycle.generateTokens_run. eexists _, _. reflexivity. Qed.

(** The guard lets through every unexpired refresh token of a subject as
    long as the subject has a live refresh record, whichever of the
    subject's refresh tokens that record was computed from. *)
Lemma guard_accepts_any_token_of_subject cfg u w t signed_at
    stored_salt stored_at expires :
  UsersService.select (UsersService.by_id (id u)) w = Some u ->
  (19 <= String.length (id u))%nat ->
  String.length stored_salt = Bcrypt.salt_length ->
  redis w !! TokenService.refresh_key (id u) =
    Some {| value :=
              Bcrypt.hash stored_salt
                (Jwt.compact (AuthService.signRefresh (online cfg stored_at) u));
            expires_at := expires |} ->
  t < expires ->
  t / 1000 < signed_at / 1000 + refreshExpiresIn cfg ->
  JwtRefreshStrategy.guard
    (Passport.body_request (AuthService.signRefresh (online cfg signed_at) u))
    (online cfg t) w =
  (inr u, Redis.issue (GET (TokenService.refresh_key (id u))) w).
Proof.
  intros S L19 Ls R Tl Te.
  rewrite refresh_guard_run.
  unfold AuthService.signRefresh at 1.
  cbn [config online now_s now redis_up].
  rewrite JwtFacts.verify_sign by (reflexivity || exact Te).
  cbn [app]. replace (Json.template (Json.get "sub" _)) with (id u) by reflexivity.
  cbv zeta. unfold Redis.lookup. rewrite R. unfold Redis.live.
  cbn [expires_at value].
  destruct (N.ltb_spec t expires) as [_|]; [|lia].
  destruct stored_salt as [|c stored_salt]; [discriminate Ls|].
  unfold Bcrypt.hash at 1. rewrite TextFacts.app_cons.
  fold (Bcrypt.hash (String c stored_salt)
          (Jwt.compact (AuthService.signRefresh (online cfg stored_at) u))).
  rewrite RefreshFacts.compare_same_head.
  - rewrite S. reflexivity.
  - exact Ls.
  - unfold AuthService.signRefresh, Bcrypt.max_input.
    rewrite !RefreshFacts.head_of_refresh_token by exact L19. reflexivity.
Qed.

(** One issuance followed by a refresh with a refresh token of the same
    subject: guard and AuthService.refresh both succeed. *)
Lemma issue_then_refresh cfg u w jti salt jti' salt' t t' signed_at :
  UsersService.select (UsersService.by_id (id u)) w = Some u ->
  (19 <= String.length (id u))%nat ->
  String.length salt = Bcrypt.salt_length ->
  t' < t + 604800000 ->
  t' / 1000 < signed_at / 1000 + refreshExpiresIn cfg ->
  exists tk w1 wg tk' w2,
    AuthService.generateTokens jti salt u (online cfg t) w = (inr tk, w1) /\
    AuthService.refreshToken tk = AuthService.signRefresh (online cfg t) u /\
    JwtRefreshStrategy.guard
      (Passport.body_request (AuthService.signRefresh (online cfg signed_at) u))
      (online cfg t') w1 = (inr u, wg) /\
    AuthService.refresh jti' salt' u (online cfg t') wg = (inr tk', w2) /\
    AuthService.refreshToken tk' = AuthService.signRefresh (online cfg t') u /\
    UsersService.select (UsersService.by_id (id u)) w2 = Some u /\
    redis w2 !! TokenService.refresh_key (id u) =
      Some {| value := Bcrypt.hash salt' (Jwt.compact (AuthService.refreshToken tk'));
              expires_at := t' + 1000 * 604800 |}.
Proof.
  intros S L19 Ls Tl Te.
  destruct (issuance_succeeds jti salt u cfg t w) as (tk & w1 & G).
  destruct (issuance_overwrites_record _ _ _ _ _ _ _ G) as (R1 & _ & U1 & T1).
  rewrite T1 in R1. cbn [now online] in R1.
  assert (S1 : UsersService.select (UsersService.by_id (id u)) w1 = Some u).
  { unfold UsersService.select in *. rewrite U1. exact S. }
  pose proof (guard_accepts_any_token_of_subject cfg u w1 t' signed_at
                salt t _ S1 L19 Ls R1 ltac:(lia) Te) as A.
  destruct (issuance_succeeds jti' salt' u cfg t'
              (Redis.issue (GET (TokenService.refresh_key (id u))) w1))
    as (tk' & w2 & G').
  destruct (issuance_overwrites_record _ _ _ _ _ _ _ G') as (R2 & _ & U2 & T2).
  exists tk, w1, (Redis.issue (GET (TokenService.refresh_key (id u))) w1), tk', w2.
  unfold AuthService.refresh.
  repeat split; try eassumption.
  unfold UsersService.select in *. rewrite U2. exact S1.
Qed.

(** Two refresh tokens signed in different seconds are different texts. *)
Lemma signRefresh_differs cfg u t t' :
  t / 1000 <> t' / 1000 ->
  AuthService.signRefresh (online cfg t) u <> AuthService.signRefresh (online cfg t') u.
Proof.
  intros N E. unfold AuthService.signRefresh, Jwt.sign, now_s, online in E.
  cbn [app now] in E. inversion E. congruence.
Qed.

(** C1 on the code.  A subject logs in at [t0] and gets [rt1]; the
    subject refreshes with [rt1] at [t1] and gets a new pair, with a
    different refresh token when the second has changed; at [t2] the
    subject presents [rt1] again.  As long as [rt1] has not expired the
    guard lets it through once more and AuthService.refresh mints a third
    pair: the stored hash covers the first 72 bytes of the new refresh
    token, and [rt1] has the same 72 bytes.  The claim asks for this second
    use to fail. *)
Theorem rotated_refresh_token_still_accepted cfg u w jti1 jti2 jti3
    salt1 salt2 salt3 t0 t1 t2 :
  UsersService.select (UsersService.by_id (id u)) w = Some u ->
  (19 <= String.length (id u))%nat ->
  String.length salt1 = Bcrypt.salt_length ->
  String.length salt2 = Bcrypt.salt_length ->
  t0 <= t1 -> t1 <= t2 ->
  t2 < t0 + 604800000 ->
  t2 / 1000 < t0 / 1000 + refreshExpiresIn cfg ->
  exists tk1 w1 wg tk2 w2 wg' tk3 w3,
    AuthService.login jti1 salt1 u (online cfg t0) w = (inr tk1, w1) /\
    JwtRefreshStrategy.guard (Passport.body_request (AuthService.refreshToken tk1))
      (online cfg t1) w1 = (inr u, wg) /\
    AuthService.refresh jti2 salt2 u (online cfg t1) wg = (inr tk2, w2) /\
    (t0 / 1000 <> t1 / 1000 ->
     AuthService.refreshToken tk2 <> AuthService.refreshToken tk1) /\
    JwtRefreshStrategy.guard (Passport.body_request (AuthService.refreshToken tk1))
      (online cfg t2) w2 = (inr u, wg') /\
    AuthService.refresh jti3 salt3 u (online cfg t2) wg' = (inr tk3, w3).
Proof.
  intros S L19 Ls1 Ls2 T01 T12 Tl Te.
  assert (Te1 : t1 / 1000 < t0 / 1000 + refreshExpiresIn cfg).
  { pose proof (N.Div0.div_le_mono t1 t2 1000 T12). lia. }
  destruct (issue_then_refresh cfg u w jti1 salt1 jti2 salt2 t0 t1 t0
              S L19 Ls1 ltac:(lia) Te1)
    as (tk1 & w1 & wg & tk2 & w2 & G1 & E1 & A1 & G2 & E2 & S2 & R2).
  rewrite E2 in R2.
  pose proof (guard_accepts_any_token_of_subject cfg u w2 t2 t0
                salt2 t1 _ S2 L19 Ls2 R2 ltac:(lia) Te) as A2.
  destruct (issuance_succeeds jti3 salt3 u cfg t2
              (Redis.issue (GET (TokenService.refresh_key (id u))) w2))
    as (tk3 & w3 & G3).
  exists tk1, w1, wg, tk2, w2,
    (Redis.issue (GET (TokenService.refresh_key (id u))) w2), tk3, w3.
  unfold AuthService.login, AuthService.refresh in *.
  rewrite E1. repeat split; try eassumption.
  rewrite E2. intros N E. symmetry in E.
  exact (signRefresh_differs cfg u t0 t1 N E).
Qed.

(** C3 on the code.  Two logins of the same subject, at [t0] and [t1]:
    the subject's one refresh record is overwritten by the second login,
    yet at [t2] the refresh token of the first login still passes the
    guard and AuthService.refresh mints a new pair for it, for the same
    reason as in C1.  The claim asks for it to fail. *)
Theorem first_login_token_survives_second_login cfg u w jti1 jti2 jti3
    salt1 salt2 salt3 t0 t1 t2 :
  UsersService.select (UsersService.by_id (id u)) w = Some u ->
  (19 <= String.length (id u))%nat ->
  String.length salt2 = Bcrypt.salt_length ->
  t0 <= t1 -> t1 <= t2 ->
  t2 < t1 + 604800000 ->
  t2 / 1000 < t0 / 1000 + refreshExpiresIn cfg ->
  exists tk1 w1 tk2 w2 wg tk3 w3,
    AuthService.login jti1 salt1 u (online cfg t0) w = (inr tk1, w1) /\
    AuthService.login jti2 salt2 u (online cfg t1) w1 = (inr tk2, w2) /\
    redis w2 !! TokenService.refresh_key (id u) =
      Some {| value := Bcrypt.hash salt2 (Jwt.compact (AuthService.refreshToken tk2));
              expires_at := t1 + 1000 * 604800 |} /\
    (t0 / 1000 <> t1 / 1000 ->
     AuthService.refreshToken tk2 <> AuthService.refreshToken tk1) /\
    JwtRefreshStrategy.guard (Passport.body_request (AuthService.refreshToken tk1))
      (online cfg t2) w2 = (inr u, wg) /\
    AuthService.refresh jti3 salt3 u (online cfg t2) wg = (inr tk3, w3).
Proof.
  intros S L19 Ls2 T01 T12 Tl Te. unfold AuthService.login.
  destruct (issuance_succeeds jti1 salt1 u cfg t0 w) as (tk1 & w1 & G1).
  destruct (issuance_overwrites_record _ _ _ _ _ _ _ G1) as (_ & _ & U1 & E1).
  assert (S1 : UsersService.select (UsersService.by_id (id u)) w1 = Some u).
  { unfold UsersService.select in *. rewrite U1. exact S. }
  destruct (issue_then_refresh cfg u w1 jti2 salt2 jti3 salt3 t1 t2 t0
              S1 L19 Ls2 Tl Te)
    as (tk2 & w2 & wg & tk3 & w3 & G2 & E2 & A & G3 & _ & _ & _).
  destruct (issuance_overwrites_record _ _ _ _ _ _ _ G2) as (R2 & _ & _ & _).
  exists tk1, w1, tk2, w2, wg, tk3, w3. rewrite E1.
  repeat split; try eassumption.
  rewrite E2. intros N E. symmetry in E.
  exact (signRefresh_differs cfg u t0 t1 N E).
Qed.

End WithCrypto.

(** Alice (a uuid for id) logs in at [t0], refreshes a minute later and
    presents the first refresh token again after another minute. *)
Lemma rotated_refresh_token_still_accepted_witness :
  exists tk1 w1 wg tk2 w2 wg' tk3 w3,
    AuthService.login "jti-1" Scenario.salt1 Scenario.alice
      (online Scenario.cfg Scenario.t0) Scenario.world0 = (inr tk1, w1) /\
    JwtRefreshStrategy.guard (Passport.body_request (AuthService.refreshToken tk1))
      (online Scenario.cfg (Scenario.t0 + 60000)) w1 = (inr Scenario.alice, wg) /\
    AuthService.refresh "jti-2" Scenario.salt2 Scenario.alice
      (online Scenario.cfg (Scenario.t0 + 60000)) wg = (inr tk2, w2) /\
    (Scenario.t0 / 1000 <> (Scenario.t0 + 60000) / 1000 ->
     AuthService.refreshToken tk2 <> AuthService.refreshToken tk1) /\
    JwtRefreshStrategy.guard (Passport.body_request (AuthService.refreshToken tk1))
      (online Scenario.cfg (Scenario.t0 + 120000)) w2 = (inr Scenario.alice, wg') /\
    AuthService.refresh "jti-3" Scenario.salt3 Scenario.alice
      (online Scenario.cfg (Scenario.t0 + 120000)) wg' = (inr tk3, w3).
Proof.
  apply (rotated_refresh_token_still_accepted Scenario.cfg Scenario.alice
           Scenario.world0 "jti-1" "jti-2" "jti-3"
           Scenario.salt1 Scenario.salt2 Scenario.salt3
           Scenario.t0 (Scenario.t0 + 60000) (Scenario.t0 + 120000)).
  - vm_compute. reflexivity.
  - vm_compute. lia.
  - reflexivity.
  - reflexivity.
  - vm_compute. discriminate.
  - vm_compute. discriminate.
  - vm_compute. reflexivity.
  - vm_compute. reflexivity.
Defined.

(** The same run, evaluated: the refresh at [t0 + 60 s] returns [rt2], a
    token other than [rt1], and at [t0 + 120 s] the guard still yields
    Alice for [rt1]. *)
Lemma reused_refresh_token_evaluated :
  Scenario.rt2 <> Scenario.rt1 /\
  (exists w', JwtRefreshStrategy.guard (Passport.body_request Scenario.rt1)
                (Scenario.at_s 120) Scenario.world2 = (inr Scenario.alice, w')) /\
  (exists w', JwtRefreshStrategy.guard (Passport.body_request Scenario.rt2)
                (Scenario.at_s 120) Scenario.world2 = (inr Scenario.alice, w')).
Proof.
  split; [|split].
  - vm_compute. discriminate.
  - eexists. vm_compute. reflexivity.
  - eexists. vm_compute. reflexivity.
Qed.

(** Alice logs in at [t0] and again a minute later, then refreshes with the
    token of the first login. *)
Lemma first_login_token_survives_second_login_witness :
  exists tk1 w1 tk2 w2 wg tk3 w3,
    AuthService.login "jti-1" Scenario.salt1 Scenario.alice
      (online Scenario.cfg Scenario.t0) Scenario.world0 = (inr tk1, w1) /\
    AuthService.login "jti-2" Scenario.salt2 Scenario.alice
      (online Scenario.cfg (Scenario.t0 + 60000)) w1 = (inr tk2, w2) /\
    redis w2 !! TokenService.refresh_key (id Scenario.alice) =
      Some {| value := Bcrypt.hash Scenario.salt2
                         (Jwt.compact (AuthService.refreshToken tk2));
              expires_at := Scenario.t0 + 60000 + 1000 * 604800 |} /\
    (Scenario.t0 / 1000 <> (Scenario.t0 + 60000) / 1000 ->
     AuthService.refreshToken tk2 <> AuthService.refreshToken tk1) /\
    JwtRefreshStrategy.guard (Passport.body_request (AuthService.refreshToken tk1))
      (online Scenario.cfg (Scenario.t0 + 120000)) w2 = (inr Scenario.alice, wg) /\
    AuthService.refresh "jti-3" Scenario.salt3 Scenario.alice
      (online Scenario.cfg (Scenario.t0 + 120000)) wg = (inr tk3, w3).
Proof.
  apply (first_login_token_survives_second_login Scenario.cfg Scenario.alice
           Scenario.world0 "jti-1" "jti-2" "jti-3"
           Scenario.salt1 Scenario.salt2 Scenario.salt3
           Scenario.t0 (Scenario.t0 + 60000) (Scenario.t0 + 120000)).
  - vm_compute. reflexivity.
  - vm_compute. lia.
  - reflexivity.
  - vm_compute. discriminate.
  - vm_compute. discriminate.
  - vm_compute. reflexivity.
  - vm_compute. reflexivity.
Defined.

(** After the second login the guard yields Alice for either refresh
    token. *)
Lemma first_login_token_evaluated :
  (exists w', JwtRefreshStrategy.guard (Passport.body_request Scenario.rt1)
                (Scenario.at_s 120) Scenario.world2' = (inr Scenario.alice, w')) /\
  (exists w', JwtRefreshStrategy.guard (Passport.body_request Scenario.rt2)
                (Scenario.at_s 120) Scenario.world2' = (inr Scenario.alice, w')).
Proof.
  split.
  - eexists. vm_compute. reflexivity.
  - eexists. vm_compute. reflexivity.
Qed.

End Rotation.


(** * More of the code *)

(** ** token.service.ts: what is written can be read back *)
Module TokenStore.

(** X1.  A refresh token saved for [ttl] seconds is what getRefreshToken
    returns for the same user until those seconds are over, and null from
    then on. *)
Theorem saved_refresh_token_read_back userId token ttl env env' w :
  redis_up env = true ->
  redis_up env' = true ->
  exists w1 w2,
    TokenService.saveRefreshToken userId token ttl env w = (inr tt, w1) /\
    TokenService.getRefreshToken userId env' w1 =
      (inr (if now env' <? now env + 1000 * ttl then Some token else None), w2).
Proof.
  intros U U'. unfold_token_service. rewrite U, U'. cbv zeta.
  eexists _, _. split; [reflexivity|].
  cbn [redis Redis.store Redis.issue].
  rewrite RedisFacts.lookup_insert_same. reflexivity.
Qed.

(** X2.  After blacklistToken(jti, ttl), isBlacklisted answers true for
    that token id until [ttl] seconds have passed and false afterwards;
    for every other token id it answers what it answered before. *)
Theorem blacklisted_until_ttl jti jti' ttl env env' w :
  redis_up env = true ->
  redis_up env' = true ->
  exists before w0 w1 w2,
    TokenService.isBlacklisted jti' env' w = (inr before, w0) /\
    TokenService.blacklistToken jti ttl env w = (inr tt, w1) /\
    TokenService.isBlacklisted jti' env' w1 =
      (inr (if String.eqb jti jti'
            then now env' <? now env + 1000 * ttl
            else before), w2).
Proof.
  intros U U'. unfold_token_service. unfold_promise. rewrite U, U'. cbv zeta.
  cbn [redis Redis.store Redis.issue].
  destruct (String.eqb_spec jti jti') as [->|N].
  - eexists _, _, _, _. split; [reflexivity|]. split; [reflexivity|].
    cbn [redis Redis.store Redis.issue].
    rewrite RedisFacts.lookup_insert_same. unfold Redis.live. cbn [expires_at value].
    destruct (now env' <? now env + 1000 * ttl); reflexivity.
  - eexists _, _, _, _. split; [reflexivity|]. split; [reflexivity|].
    cbn [redis Redis.store Redis.issue].
    rewrite RedisFacts.lookup_insert_other; [reflexivity|].
    intros E. apply blacklist_key_inj in E. contradiction.
Qed.

(** X3.  deleteRefreshToken succeeds whether or not the user has a record;
    afterwards getRefreshToken returns null for that user, and when there
    was no record the key space is what it was. *)
Theorem deleted_refresh_token_is_gone userId env env' w :
  redis_up env = true ->
  redis_up env' = true ->
  exists w1 w2,
    TokenService.deleteRefreshToken userId env w = (inr tt, w1) /\
    TokenService.getRefreshToken userId env' w1 = (inr None, w2) /\
    users w1 = users w /\
    (redis w !! TokenService.refresh_key userId = None -> redis w1 = redis w).
Proof.
  intros U U'. unfold_token_service. rewrite U, U'. cbv zeta.
  eexists _, _. split; [reflexivity|].
  cbn [redis users Redis.store Redis.issue].
  rewrite RedisFacts.lookup_delete_same.
  repeat split. intros E. apply delete_id. exact E.
Qed.

(** X4.  Refresh records and revocation entries live apart, even for a
    user id and a token id that are the same text: saving or deleting a
    refresh token never changes what isBlacklisted reads, and
    blacklisting never changes what getRefreshToken reads. *)
Theorem refresh_records_and_blacklist_apart (a b token : string) ttl t env w :
  Redis.lookup t (TokenService.blacklist_key b)
    (redis (snd (TokenService.saveRefreshToken a token ttl env w)))
  = Redis.lookup t (TokenService.blacklist_key b) (redis w) /\
  Redis.lookup t (TokenService.blacklist_key b)
    (redis (snd (TokenService.deleteRefreshToken a env w)))
  = Redis.lookup t (TokenService.blacklist_key b) (redis w) /\
  Redis.lookup t (TokenService.refresh_key a)
    (redis (snd (TokenService.blacklistToken b ttl env w)))
  = Redis.lookup t (TokenService.refresh_key a) (redis w).
Proof.
  pose proof (refresh_key_not_blacklist_key a b) as N.
  unfold_token_service.
  destruct (redis_up env); cbn [snd redis Redis.store Redis.issue];
    repeat split; try reflexivity.
  - apply RedisFacts.lookup_insert_other. exact N.
  - apply RedisFacts.lookup_delete_other. exact N.
  - apply RedisFacts.lookup_insert_other. congruence.
Qed.

Lemma saved_refresh_token_read_back_witness :
  exists w1 w2,
    TokenService.saveRefreshToken "u-1" "hashed" 604800 (Scenario.at_s 0)
      Scenario.world0 = (inr tt, w1) /\
    TokenService.getRefreshToken "u-1" (Scenario.at_s 604800) w1 =
      (inr (if now (Scenario.at_s 604800) <? now (Scenario.at_s 0) + 1000 * 604800
            then Some "hashed" else None), w2).
Proof.
  apply (saved_refresh_token_read_back "u-1" "hashed" 604800 (Scenario.at_s 0)
           (Scenario.at_s 604800) Scenario.world0); reflexivity.
Defined.

Lemma blacklisted_until_ttl_witness :
  exists before w0 w1 w2,
    TokenService.isBlacklisted "jti-1" (Scenario.at_s 60) Scenario.world1
      = (inr before, w0) /\
    TokenService.blacklistToken "jti-1" 900 (Scenario.at_s 0) Scenario.world1
      = (inr tt, w1) /\
    TokenService.isBlacklisted "jti-1" (Scenario.at_s 60) w1 =
      (inr (if String.eqb "jti-1" "jti-1"
            then now (Scenario.at_s 60) <? now (Scenario.at_s 0) + 1000 * 900
            else before), w2).
Proof.
  apply (blacklisted_until_ttl "jti-1" "jti-1" 900 (Scenario.at_s 0)
           (Scenario.at_s 60) Scenario.world1); reflexivity.
Defined.

Lemma deleted_refresh_token_is_gone_witness :
  exists w1 w2,
    TokenService.deleteRefreshToken (id Scenario.alice) (Scenario.at_s 10)
      Scenario.world1 = (inr tt, w1) /\
    TokenService.getRefreshToken (id Scenario.alice) (Scenario.at_s 20) w1
      = (inr None, w2) /\
    users w1 = users Scenario.world1 /\
    (redis Scenario.world1 !! TokenService.refresh_key (id Scenario.alice) = None ->
     redis w1 = redis Scenario.world1).
Proof.
  apply (deleted_refresh_token_is_gone (id Scenario.alice) (Scenario.at_s 10)
           (Scenario.at_s 20) Scenario.world1); reflexivity.
Defined.

End TokenStore.


(** ** users.service.ts, validateUser and register *)
Module Directory.

Lemma find_app_one {A} (p : A -> bool) (l : list A) (x : A) :
  List.find p (l ++ [x]) =
  match List.find p l with
  | Some v => Some v
  | None => if p x then Some x else None
  end.
Proof.
  induction l as [|y l IH]; cbn [List.find app].
  - reflexivity.
  - destruct (p y); [reflexivity | exact IH].
Qed.

Section WithCrypto.
Context `{Crypto}.

(** UsersService.create, as one case analysis. *)
Lemma create_run newId salt dto env w :
  UsersService.create newId salt dto env w =
  match UsersService.select (UsersService.by_email (UsersService.dto_email dto)) w with
  | Some _ => (inl (ConflictException "Email already registered"), w)
  | None =>
      let u := {| id := newId; email := UsersService.dto_email dto;
                  password := Bcrypt.hash salt (UsersService.dto_password dto);
                  firstName := UsersService.dto_firstName dto;
                  lastName := UsersService.dto_lastName dto;
                  isActive := true; roles := ["user"];
                  createdAt := now env; updatedAt := now env |} in
      (inr u, {| redis := redis w; redis_log := redis_log w;
                 users := (users w ++ [u])%list |})
  end.
Proof.
  unfold UsersService.create, UsersService.findOne, UsersService.save.
  unfold_promise.
  destruct (UsersService.select _ w); reflexivity.
Qed.

(** AuthService.validateUser, as one case analysis. *)
Lemma validateUser_run e p env w :
  AuthService.validateUser e p env w =
  (inr match UsersService.select (UsersService.by_email e) w with
       | Some u => if Bcrypt.compare p (password u) then Some u else None
       | None => None
       end, w).
Proof.
  unfold AuthService.validateUser, UsersService.findByEmail, UsersService.findOne,
    UsersService.validatePassword.
  unfold_promise.
  destruct (UsersService.select _ w); reflexivity.
Qed.

(** X6.  For an address not yet in the table create appends one row: the
    id the database generated, the form's address and names, the bcrypt
    hash of the password, active, with the single role user.  The new row
    is what findByEmail returns for the address and, when the id was not
    in use, what findById returns for the id; every lookup that found a
    row before finds the same row, and Redis is not touched. *)
Theorem created_user_is_found newId salt dto env w :
  UsersService.select (UsersService.by_email (UsersService.dto_email dto)) w = None ->
  exists u w1,
    UsersService.create newId salt dto env w = (inr u, w1) /\
    u = {| id := newId; email := UsersService.dto_email dto;
           password := Bcrypt.hash salt (UsersService.dto_password dto);
           firstName := UsersService.dto_firstName dto;
           lastName := UsersService.dto_lastName dto;
           isActive := true; roles := ["user"];
           createdAt := now env; updatedAt := now env |} /\
    users w1 = (users w ++ [u])%list /\
    redis w1 = redis w /\
    redis_log w1 = redis_log w /\
    UsersService.select (UsersService.by_email (UsersService.dto_email dto)) w1 = Some u /\
    (UsersService.select (UsersService.by_id newId) w = None ->
     UsersService.select (UsersService.by_id newId) w1 = Some u) /\
    (forall p v, UsersService.select p w = Some v -> UsersService.select p w1 = Some v).
Proof.
  intros E. rewrite create_run, E. cbv zeta.
  eexists _, _. split; [reflexivity|]. split; [reflexivity|].
  unfold UsersService.select in *. cbn [users redis redis_log].
  repeat split.
  - rewrite find_app_one, E. unfold UsersService.by_email. cbn [email].
    rewrite String.eqb_refl. reflexivity.
  - intros I. rewrite find_app_one, I. unfold UsersService.by_id. cbn [id].
    rewrite String.eqb_refl. reflexivity.
  - intros p v F. rewrite find_app_one, F. reflexivity.
Qed.

(** X7.  Password round trip: a user created with a password is the user
    validateUser returns for that address and that password (the salt is
    bcrypt's, 29 characters). *)
Theorem created_user_can_log_in newId salt dto env env' w :
  UsersService.select (UsersService.by_email (UsersService.dto_email dto)) w = None ->
  String.length salt = Bcrypt.salt_length ->
  exists u w1,
    UsersService.create newId salt dto env w = (inr u, w1) /\
    AuthService.validateUser (UsersService.dto_email dto)
      (UsersService.dto_password dto) env' w1 = (inr (Some u), w1).
Proof.
  intros E L. rewrite create_run, E. cbv zeta.
  eexists _, _. split; [reflexivity|].
  rewrite validateUser_run. unfold UsersService.select in *. cbn [users].
  rewrite find_app_one, E. unfold UsersService.by_email at 1. cbn [email].
  rewrite String.eqb_refl. cbn [password].
  rewrite RefreshFacts.compare_same_head by (exact L || reflexivity).
  reflexivity.
Qed.


(** X9.  Of a password only the first 72 bytes count: two passwords that
    agree on them get the same answer from validateUser, for every address
    and every state of the table. *)
Theorem validateUser_reads_72_bytes e p p' env w :
  take 72 p = take 72 p' ->
  AuthService.validateUser e p env w = AuthService.validateUser e p' env w.
Proof.
  intros E. rewrite !validateUser_run.
  destruct (UsersService.select _ w) as [u|]; [|reflexivity].
  unfold Bcrypt.compare, Bcrypt.hash, Bcrypt.max_input. rewrite E. reflexivity.
Qed.

End WithCrypto.

Lemma created_user_is_found_witness :
  exists u w1,
    UsersService.create Cases.carol_id Cases.pw_salt Cases.carol_dto
      (Scenario.at_s 0) Scenario.world0 = (inr u, w1) /\
    u = {| id := Cases.carol_id; email := UsersService.dto_email Cases.carol_dto;
           password := Bcrypt.hash Cases.pw_salt
                         (UsersService.dto_password Cases.carol_dto);
           firstName := UsersService.dto_firstName Cases.carol_dto;
           lastName := UsersService.dto_lastName Cases.carol_dto;
           isActive := true; roles := ["user"];
           createdAt := now (Scenario.at_s 0); updatedAt := now (Scenario.at_s 0) |} /\
    users w1 = (users Scenario.world0 ++ [u])%list /\
    redis w1 = redis Scenario.world0 /\
    redis_log w1 = redis_log Scenario.world0 /\
    UsersService.select
      (UsersService.by_email (UsersService.dto_email Cases.carol_dto)) w1 = Some u /\
    (UsersService.select (UsersService.by_id Cases.carol_id) Scenario.world0 = None ->
     UsersService.select (UsersService.by_id Cases.carol_id) w1 = Some u) /\
    (forall p v, UsersService.select p Scenario.world0 = Some v ->
                 UsersService.select p w1 = Some v).
Proof.
  apply (created_user_is_found Cases.carol_id Cases.pw_salt Cases.carol_dto
           (Scenario.at_s 0) Scenario.world0).
  reflexivity.
Defined.

Lemma created_user_can_log_in_witness :
  exists u w1,
    UsersService.create Cases.carol_id Cases.pw_salt Cases.carol_dto
      (Scenario.at_s 0) Scenario.world0 = (inr u, w1) /\
    AuthService.validateUser (UsersService.dto_email Cases.carol_dto)
      (UsersService.dto_password Cases.carol_dto) (Scenario.at_s 60) w1
    = (inr (Some u), w1).
Proof.
  apply (created_user_can_log_in Cases.carol_id Cases.pw_salt Cases.carol_dto
           (Scenario.at_s 0) (Scenario.at_s 60) Scenario.world0); reflexivity.
Defined.

(** Dave registered with an 81-byte pass phrase; a pass phrase with
    another ending is answered the same. *)
Lemma validateUser_reads_72_bytes_witness :
  AuthService.validateUser "dave@example.com" Cases.long_password (Scenario.at_s 60)
    (snd (UsersService.create "d-1" Cases.pw_salt Cases.dave_dto (Scenario.at_s 0)
            Scenario.world0))
  = AuthService.validateUser "dave@example.com" Cases.long_password' (Scenario.at_s 60)
      (snd (UsersService.create "d-1" Cases.pw_salt Cases.dave_dto (Scenario.at_s 0)
              Scenario.world0)).
Proof.
  apply (validateUser_reads_72_bytes "dave@example.com" Cases.long_password
           Cases.long_password'). vm_compute. reflexivity.
Defined.

End Directory.


(** ** AuthService.register *)
Module Registration.
Section WithCrypto.
Context `{Crypto}.

(** register: create, then generateTokens for the row created. *)
Lemma register_run newId pwSalt jti salt dto env w :
  AuthService.register newId pwSalt jti salt dto env w =
  match UsersService.select (UsersService.by_email (UsersService.dto_email dto)) w with
  | Some _ => (inl (ConflictException "Email already registered"), w)
  | None =>
      let u := {| id := newId; email := UsersService.dto_email dto;
                  password := Bcrypt.hash pwSalt (UsersService.dto_password dto);
                  firstName := UsersService.dto_firstName dto;
                  lastName := UsersService.dto_lastName dto;
                  isActive := true; roles := ["user"];
                  createdAt := now env; updatedAt := now env |} in
      AuthService.generateTokens jti salt u env
        {| redis := redis w; redis_log := redis_log w;
           users := (users w ++ [u])%list |}
  end.
Proof.
  unfold AuthService.register, bind. rewrite Directory.create_run.
  destruct (UsersService.select _ w); reflexivity.
Qed.

(** X10.  register with an address that is taken fails with the
    ConflictException of create before anything is written: no row, no
    refresh record, no Redis command, no tokens. *)
Theorem register_rejects_taken_email newId pwSalt jti salt dto env w existing :
  UsersService.select (UsersService.by_email (UsersService.dto_email dto)) w
    = Some existing ->
  AuthService.register newId pwSalt jti salt dto env w =
    (inl (ConflictException "Email already registered"), w).
Proof. intros E. rewrite register_run, E. reflexivity. Qed.

(** X11.  register with a new address and Redis answering appends the
    user's row (active, role user) and returns a token pair for it: the
    public user shows the new id, the address and the role user, both
    tokens are signed for the new row, and the refresh record of the new
    id holds the hash of the refresh token for seven days. *)
Theorem register_issues_tokens_for_new_user newId pwSalt jti salt dto env w :
  UsersService.select (UsersService.by_email (UsersService.dto_email dto)) w = None ->
  redis_up env = true ->
  exists tk w1 u,
    AuthService.register newId pwSalt jti salt dto env w = (inr tk, w1) /\
    users w1 = (users w ++ [u])%list /\
    id u = newId /\ email u = UsersService.dto_email dto /\
    isActive u = true /\ roles u = ["user"] /\
    AuthService.user tk =
      {| AuthService.pu_id := newId;
         AuthService.pu_email := UsersService.dto_email dto;
         AuthService.pu_roles := ["user"] |} /\
    AuthService.accessToken tk = AuthService.signAccess env jti u /\
    AuthService.refreshToken tk = AuthService.signRefresh env u /\
    redis w1 !! TokenService.refresh_key newId =
      Some {| value := Bcrypt.hash salt (Jwt.compact (AuthService.refreshToken tk));
              expires_at := now env + 604800000 |}.
Proof.
  intros E U. rewrite register_run, E. cbv zeta.
  rewrite Lifecycle.generateTokens_run, U. cbv zeta.
  eexists _, _, _. split; [reflexivity|].
  cbn [users redis Redis.store Redis.issue id email isActive roles
       AuthService.user AuthService.accessToken AuthService.refreshToken].
  repeat split. apply lookup_insert_eq.
Qed.

(** X12.  register is not undone when Redis fails: with a new address and
    Redis not answering the call rejects with the Redis error and returns
    no tokens, but the user's row has been written, so registering the
    same address again is refused as a duplicate. *)
Theorem register_keeps_row_when_store_is_down newId pwSalt jti salt dto env w :
  UsersService.select (UsersService.by_email (UsersService.dto_email dto)) w = None ->
  redis_up env = false ->
  exists w1 u,
    AuthService.register newId pwSalt jti salt dto env w = (inl RedisError, w1) /\
    users w1 = (users w ++ [u])%list /\
    id u = newId /\ email u = UsersService.dto_email dto /\
    redis w1 = redis w /\
    forall newId' pwSalt' jti' salt' env',
      AuthService.register newId' pwSalt' jti' salt' dto env' w1 =
        (inl (ConflictException "Email already registered"), w1).
Proof.
  intros E D. rewrite register_run, E. cbv zeta.
  rewrite Lifecycle.generateTokens_run, D. cbv zeta.
  eexists _, _. split; [reflexivity|].
  cbn [users redis Redis.issue id email]. repeat split.
  intros newId' pwSalt' jti' salt' env'. rewrite register_run.
  unfold UsersService.select in *. cbn [users Redis.issue].
  rewrite Directory.find_app_one, E. unfold UsersService.by_email at 1.
  cbn [email]. rewrite String.eqb_refl. reflexivity.
Qed.

(** X13.  The access token register returns passes the local guard at
    once, and the principal is the new user: the generated id, the form's
    address, the role user and the token id.  (The id and the token id are
    new, Redis answers, access tokens have a positive lifetime.) *)
Theorem registered_user_passes_guard newId pwSalt jti salt dto env w :
  UsersService.select (UsersService.by_email (UsersService.dto_email dto)) w = None ->
  UsersService.select (UsersService.by_id newId) w = None ->
  redis_up env = true ->
  0 < accessExpiresIn (config env) ->
  Redis.lookup (now env) (TokenService.blacklist_key jti) (redis w) = None ->
  exists tk w1 w2,
    AuthService.register newId pwSalt jti salt dto env w = (inr tk, w1) /\
    JwtStrategy.guard (Passport.bearer_request (AuthService.accessToken tk)) env w1 =
      (inr {| JwtStrategy.p_id := newId;
              JwtStrategy.p_email := UsersService.dto_email dto;
              JwtStrategy.p_roles := ["user"];
              JwtStrategy.p_jti := Some (Json.JStr jti) |}, w2).
Proof.
  intros E I U P F. rewrite register_run, E. cbv zeta.
  rewrite Lifecycle.generateTokens_run, U. cbv zeta.
  eexists _, _, _. split; [reflexivity|].
  cbn [AuthService.accessToken]. unfold Passport.bearer_request.
  rewrite Validation.guard_run.
  rewrite (Lifecycle.verify_signAccess env jti _ P), U. cbv zeta.
  replace (Json.template (Json.get "jti" _)) with jti by reflexivity.
  replace (Json.template (Json.get "sub" _)) with newId by reflexivity.
  cbn [redis Redis.store Redis.issue].
  rewrite RedisFacts.lookup_insert_other by apply refresh_key_not_blacklist_key.
  rewrite F. unfold UsersService.select in *. cbn [users Redis.store Redis.issue].
  rewrite Directory.find_app_one, I. unfold UsersService.by_id at 1. cbn [id].
  rewrite String.eqb_refl. cbn [isActive email roles id]. reflexivity.
Qed.

End WithCrypto.

Lemma register_rejects_taken_email_witness :
  AuthService.register Cases.carol_id Cases.pw_salt "jti-c" Scenario.salt1
    Cases.alice_again_dto (Scenario.at_s 0) Scenario.world0 =
    (inl (ConflictException "Email already registered"), Scenario.world0).
Proof.
  apply (register_rejects_taken_email Cases.carol_id Cases.pw_salt "jti-c"
           Scenario.salt1 Cases.alice_again_dto (Scenario.at_s 0) Scenario.world0
           Scenario.alice).
  reflexivity.
Defined.

Lemma register_issues_tokens_for_new_user_witness :
  exists tk w1 u,
    AuthService.register Cases.carol_id Cases.pw_salt "jti-c" Scenario.salt1
      Cases.carol_dto (Scenario.at_s 0) Scenario.world0 = (inr tk, w1) /\
    users w1 = (users Scenario.world0 ++ [u])%list /\
    id u = Cases.carol_id /\ email u = UsersService.dto_email Cases.carol_dto /\
    isActive u = true /\ roles u = ["user"] /\
    AuthService.user tk =
      {| AuthService.pu_id := Cases.carol_id;
         AuthService.pu_email := UsersService.dto_email Cases.carol_dto;
         AuthService.pu_roles := ["user"] |} /\
    AuthService.accessToken tk = AuthService.signAccess (Scenario.at_s 0) "jti-c" u /\
    AuthService.refreshToken tk = AuthService.signRefresh (Scenario.at_s 0) u /\
    redis w1 !! TokenService.refresh_key Cases.carol_id =
      Some {| value := Bcrypt.hash Scenario.salt1
                         (Jwt.compact (AuthService.refreshToken tk));
              expires_at := now (Scenario.at_s 0) + 604800000 |}.
Proof.
  apply (register_issues_tokens_for_new_user Cases.carol_id Cases.pw_salt "jti-c"
           Scenario.salt1 Cases.carol_dto (Scenario.at_s 0) Scenario.world0);
    reflexivity.
Defined.

Lemma register_keeps_row_when_store_is_down_witness :
  exists w1 u,
    AuthService.register Cases.carol_id Cases.pw_salt "jti-c" Scenario.salt1
      Cases.carol_dto (Cases.down_at_s 0) Scenario.world0 = (inl RedisError, w1) /\
    users w1 = (users Scenario.world0 ++ [u])%list /\
    id u = Cases.carol_id /\ email u = UsersService.dto_email Cases.carol_dto /\
    redis w1 = redis Scenario.world0 /\
    forall newId' pwSalt' jti' salt' env',
      AuthService.register newId' pwSalt' jti' salt' Cases.carol_dto env' w1 =
        (inl (ConflictException "Email already registered"), w1).
Proof.
  apply (register_keeps_row_when_store_is_down Cases.carol_id Cases.pw_salt "jti-c"
           Scenario.salt1 Cases.carol_dto (Cases.down_at_s 0) Scenario.world0);
    reflexivity.
Defined.

Lemma registered_user_passes_guard_witness :
  exists tk w1 w2,
    AuthService.register Cases.carol_id Cases.pw_salt "jti-c" Scenario.salt1
      Cases.carol_dto (Scenario.at_s 0) Scenario.world0 = (inr tk, w1) /\
    JwtStrategy.guard (Passport.bearer_request (AuthService.accessToken tk))
      (Scenario.at_s 0) w1 =
      (inr {| JwtStrategy.p_id := Cases.carol_id;
              JwtStrategy.p_email := UsersService.dto_email Cases.carol_dto;
              JwtStrategy.p_roles := ["user"];
              JwtStrategy.p_jti := Some (Json.JStr "jti-c") |}, w2).
Proof.
  apply (registered_user_passes_guard Cases.carol_id Cases.pw_salt "jti-c"
           Scenario.salt1 Cases.carol_dto (Scenario.at_s 0) Scenario.world0).
  - reflexivity.
  - reflexivity.
  - reflexivity.
  - vm_compute. reflexivity.
  - vm_compute. reflexivity.
Defined.

End Registration.


(** ** jwt-refresh.strategy.ts: when the guard says no *)
Module RefreshGuard.
Section WithCrypto.
Context `{Crypto}.

(** X14.  After logout the subject's refresh tokens are dead: whatever
    refresh token of that subject is presented, however well signed and
    unexpired, the guard answers UnauthorizedException "Refresh token
    expired or not found". *)
Theorem refresh_after_logout_fails userId jti rt p env env' w :
  redis_up env = true ->
  redis_up env' = true ->
  Jwt.verify rt (refreshSecret (config env')) (now_s env') = inr p ->
  Json.template (Json.get "sub" p) = userId ->
  exists m w1 w2,
    AuthService.logout userId jti env w = (inr m, w1) /\
    JwtRefreshStrategy.guard (Passport.body_request rt) env' w1 =
      (inl (UnauthorizedException "Refresh token expired or not found"), w2).
Proof.
  intros U U' V S. rewrite Lifecycle.logout_run, U. cbv zeta.
  eexists _, _, _. split; [reflexivity|].
  rewrite Rotation.refresh_guard_run, V, U', S. cbv zeta.
  cbn [redis Redis.store Redis.issue].
  rewrite RedisFacts.lookup_delete_same. reflexivity.
Qed.

(** X15.  The refresh record is written for seven days whatever lifetime
    jwt.refreshExpiresIn gives the token: from seven days after the
    issuance on, a refresh token that still verifies is turned away with
    "Refresh token expired or not found". *)
Theorem refresh_record_lasts_seven_days jti salt u rt p env env' w :
  redis_up env = true ->
  redis_up env' = true ->
  now env + 604800000 <= now env' ->
  Jwt.verify rt (refreshSecret (config env')) (now_s env') = inr p ->
  Json.template (Json.get "sub" p) = id u ->
  exists tk w1 w2,
    AuthService.generateTokens jti salt u env w = (inr tk, w1) /\
    JwtRefreshStrategy.guard (Passport.body_request rt) env' w1 =
      (inl (UnauthorizedException "Refresh token expired or not found"), w2).
Proof.
  intros U U' T V S. rewrite Lifecycle.generateTokens_run, U. cbv zeta.
  eexists _, _, _. split; [reflexivity|].
  rewrite Rotation.refresh_guard_run, V, U', S. cbv zeta.
  cbn [redis Redis.store Redis.issue].
  rewrite RedisFacts.lookup_insert_same. unfold Redis.live. cbn [expires_at].
  destruct (N.ltb_spec (now env') (now env + 1000 * 604800)); [lia | reflexivity].
Qed.

(** X16.  A refresh token that matches the stored record is still refused
    when its subject is no longer in the users table: the guard answers
    UnauthorizedException "User not found". *)
Theorem refresh_for_removed_user rt p stored env w :
  redis_up env = true ->
  Jwt.verify rt (refreshSecret (config env)) (now_s env) = inr p ->
  Redis.lookup (now env)
    (TokenService.refresh_key (Json.template (Json.get "sub" p))) (redis w)
    = Some stored ->
  stored <> EmptyString ->
  Bcrypt.compare (Jwt.compact rt) stored = true ->
  UsersService.select (UsersService.by_id (Json.template (Json.get "sub" p))) w = None ->
  exists w',
    JwtRefreshStrategy.guard (Passport.body_request rt) env w =
      (inl (UnauthorizedException "User not found"), w').
Proof.
  intros U V L N C S. rewrite Rotation.refresh_guard_run, V, U. cbv zeta.
  rewrite L. destruct stored as [|c stored]; [contradiction|].
  rewrite C, S. eexists. reflexivity.
Qed.

(** X17.  The refresh guard checks signature and expiry of the presented
    token before it reads the store: a token failing either is answered
    401 with no Redis command sent, a token passing both costs one GET, of
    the refresh key of its subject. *)
Theorem refresh_guard_checks_before_store rt env w :
  if Jwt.signature_ok rt (refreshSecret (config env)) && Jwt.expiry_ok rt (now_s env)
  then redis_log (snd (JwtRefreshStrategy.guard (Passport.body_request rt) env w)) =
       GET (TokenService.refresh_key
              (Json.template (Json.get "sub" (Jwt.payload_of rt)))) :: redis_log w
  else JwtRefreshStrategy.guard (Passport.body_request rt) env w =
       (inl (UnauthorizedException "Unauthorized"), w).
Proof.
  rewrite Rotation.refresh_guard_run.
  destruct (Jwt.signature_ok rt _ && Jwt.expiry_ok rt _) eqn:C.
  - apply andb_true_iff in C. destruct C as [S E].
    assert (V : Jwt.verify rt (refreshSecret (config env)) (now_s env)
                = inr (Jwt.payload_of rt)) by (apply JwtFacts.verify_inr; auto).
    rewrite V. cbv zeta. destruct (redis_up env); [|reflexivity].
    destruct (Redis.lookup _ _ _) as [[|c stored]|]; try reflexivity.
    destruct (Bcrypt.compare _ _); [|reflexivity].
    destruct (UsersService.select _ w); reflexivity.
  - destruct (JwtFacts.verify_inl _ _ _ C) as [e ->]. reflexivity.
Qed.

(** X18.  Issuing tokens for one subject and logging one subject out
    leave the refresh record of every other subject as it is. *)
Theorem other_subjects_keep_their_record jti salt u userId jti' other t env w :
  other <> id u ->
  other <> userId ->
  Redis.lookup t (TokenService.refresh_key other)
    (redis (snd (AuthService.generateTokens jti salt u env w)))
  = Redis.lookup t (TokenService.refresh_key other) (redis w) /\
  Redis.lookup t (TokenService.refresh_key other)
    (redis (snd (AuthService.logout userId jti' env w)))
  = Redis.lookup t (TokenService.refresh_key other) (redis w).
Proof.
  intros N1 N2. rewrite Lifecycle.generateTokens_run, Lifecycle.logout_run.
  cbv zeta. destruct (redis_up env); cbn [snd redis Redis.store Redis.issue];
    split; try reflexivity.
  - apply RedisFacts.lookup_insert_other. intros E.
    apply refresh_key_inj in E. congruence.
  - rewrite RedisFacts.lookup_delete_other.
    + apply RedisFacts.lookup_insert_other. intros E.
      symmetry in E. exact (refresh_key_not_blacklist_key _ _ E).
    + intros E. apply refresh_key_inj in E. congruence.
Qed.

End WithCrypto.

Lemma refresh_after_logout_fails_witness :
  exists m w1 w2,
    AuthService.logout (id Scenario.alice) "jti-1" (Scenario.at_s 600) Scenario.world1
      = (inr m, w1) /\
    JwtRefreshStrategy.guard (Passport.body_request Scenario.rt1) (Scenario.at_s 700) w1 =
      (inl (UnauthorizedException "Refresh token expired or not found"), w2).
Proof.
  apply (refresh_after_logout_fails (id Scenario.alice) "jti-1" Scenario.rt1
           (Jwt.payload_of Scenario.rt1) (Scenario.at_s 600) (Scenario.at_s 700)
           Scenario.world1).
  - reflexivity.
  - reflexivity.
  - vm_compute. reflexivity.
  - vm_compute. reflexivity.
Defined.

(** With thirty-day refresh tokens: seven days after her login Alice's
    refresh token still verifies and is turned away all the same. *)
Lemma refresh_record_lasts_seven_days_witness :
  exists tk w1 w2,
    AuthService.generateTokens "jti-1" Scenario.salt1 Scenario.alice
      (Cases.at_s_30d 0) Scenario.world0 = (inr tk, w1) /\
    JwtRefreshStrategy.guard (Passport.body_request Cases.rt_30d)
      (Cases.at_s_30d 604800) w1 =
      (inl (UnauthorizedException "Refresh token expired or not found"), w2).
Proof.
  apply (refresh_record_lasts_seven_days "jti-1" Scenario.salt1 Scenario.alice
           Cases.rt_30d (Jwt.payload_of Cases.rt_30d) (Cases.at_s_30d 0)
           (Cases.at_s_30d 604800) Scenario.world0).
  - reflexivity.
  - reflexivity.
  - vm_compute. discriminate.
  - vm_compute. reflexivity.
  - vm_compute. reflexivity.
Defined.

Lemma refresh_for_removed_user_witness :
  exists w',
    JwtRefreshStrategy.guard (Passport.body_request Scenario.rt1) (Scenario.at_s 60)
      Cases.world1_without_alice =
      (inl (UnauthorizedException "User not found"), w').
Proof.
  apply (refresh_for_removed_user Scenario.rt1 (Jwt.payload_of Scenario.rt1)
           (Bcrypt.hash Scenario.salt1 (Jwt.compact Scenario.rt1))
           (Scenario.at_s 60) Cases.world1_without_alice).
  - reflexivity.
  - vm_compute. reflexivity.
  - vm_compute. reflexivity.
  - vm_compute. discriminate.
  - vm_compute. reflexivity.
  - vm_compute. reflexivity.
Defined.

Lemma other_subjects_keep_their_record_witness :
  Redis.lookup (now (Scenario.at_s 120))
    (TokenService.refresh_key (id Scenario.alice))
    (redis (snd (AuthService.generateTokens "jti-b" Scenario.salt2 Scenario.bob
                   (Scenario.at_s 60) Scenario.world1)))
  = Redis.lookup (now (Scenario.at_s 120))
      (TokenService.refresh_key (id Scenario.alice)) (redis Scenario.world1) /\
  Redis.lookup (now (Scenario.at_s 120))
    (TokenService.refresh_key (id Scenario.alice))
    (redis (snd (AuthService.logout (id Scenario.bob) "jti-b" (Scenario.at_s 60)
                   Scenario.world1)))
  = Redis.lookup (now (Scenario.at_s 120))
      (TokenService.refresh_key (id Scenario.alice)) (redis Scenario.world1).
Proof.
  apply (other_subjects_keep_their_record "jti-b" Scenario.salt2 Scenario.bob
           (id Scenario.bob) "jti-b" (id Scenario.alice) (now (Scenario.at_s 120))
           (Scenario.at_s 60) Scenario.world1).
  - vm_compute. discriminate.
  - vm_compute. discriminate.
Defined.

End RefreshGuard.


(** ** Access tokens over their life *)
Module AccessPath.
Section WithCrypto.
Context `{Crypto}.

(** A token the service signed is reported expired from the second
    [iat + expiresIn] on. *)
Lemma verify_sign_expired payload secret ttl t0 t :
  Json.get "exp" payload = None ->
  t0 + ttl <= t ->
  Jwt.verify (Jwt.sign payload secret ttl t0) secret t = inl Jwt.TokenExpired.
Proof.
  intros G L. unfold Jwt.sign, Jwt.verify. rewrite String.eqb_refl.
  rewrite JwtFacts.get_app, G. cbn [Json.get].
  replace (String.eqb "exp" "iat") with false by reflexivity.
  rewrite String.eqb_refl.
  destruct (N.leb_spec (t0 + ttl) t); [reflexivity | lia].
Qed.

(** X19.  The local guard honours a logout as well: for 900 seconds after
    logout(sub, tid) a well-signed, unexpired token carrying tid is turned
    away with UnauthorizedException "Token has been revoked", before the
    user directory is consulted. *)
Theorem guard_rejects_revoked_token userId tok p rt env env' w :
  redis_up env = true ->
  redis_up env' = true ->
  Jwt.verify tok (accessSecret (config env')) (now_s env') = inr p ->
  now env' < now env + 900000 ->
  exists m w1 w2,
    AuthService.logout userId (Json.template (Json.get "jti" p)) env w = (inr m, w1) /\
    JwtStrategy.guard {| Passport.bearer := Some tok; Passport.body_refreshToken := rt |}
      env' w1 = (inl (UnauthorizedException "Token has been revoked"), w2).
Proof.
  intros U U' V T.
  destruct (Revocation.logout_effect userId (Json.template (Json.get "jti" p)) env w U)
    as (w1 & L & _).
  eexists _, w1, _. split; [exact L|].
  rewrite Validation.guard_run, V, U'. cbv zeta.
  rewrite (Revocation.blacklisted_after_logout _ _ _ _ _ _ _ L T). reflexivity.
Qed.

(** X20.  With Redis not answering the local guard lets nobody in and
    writes nothing; for a token that passes signature and expiry checks
    what it throws is the Redis error itself, not a 401. *)
Theorem guard_fails_closed_when_store_is_down tok rt env w :
  redis_up env = false ->
  exists e w',
    JwtStrategy.guard {| Passport.bearer := Some tok; Passport.body_refreshToken := rt |}
      env w = (inl e, w') /\
    redis w' = redis w /\ users w' = users w /\
    (Jwt.signature_ok tok (accessSecret (config env)) = true ->
     Jwt.expiry_ok tok (now_s env) = true -> e = RedisError).
Proof.
  intros D. rewrite Validation.guard_run, D.
  destruct (Jwt.verify tok (accessSecret (config env)) (now_s env)) as [e|p] eqn:V.
  - eexists _, _. split; [reflexivity|]. repeat split. intros S E.
    assert (V' : Jwt.verify tok (accessSecret (config env)) (now_s env)
                 = inr (Jwt.payload_of tok)) by (apply JwtFacts.verify_inr; auto).
    rewrite V' in V. discriminate V.
  - cbv zeta. eexists _, _. split; [reflexivity|]. repeat split.
Qed.

(** X21.  Validation only reads: validateToken, the two guards and
    validateUser leave every Redis key and every row of the users table
    as they found them, whatever they are given and whatever they
    answer. *)
Theorem validation_only_reads tok req e pw env w :
  (redis (snd (AuthService.validateToken tok env w)) = redis w /\
   users (snd (AuthService.validateToken tok env w)) = users w) /\
  (redis (snd (JwtStrategy.guard req env w)) = redis w /\
   users (snd (JwtStrategy.guard req env w)) = users w) /\
  (redis (snd (JwtRefreshStrategy.guard req env w)) = redis w /\
   users (snd (JwtRefreshStrategy.guard req env w)) = users w) /\
  AuthService.validateUser e pw env w =
    (fst (AuthService.validateUser e pw env w), w).
Proof.
  split; [|split; [|split]].
  - rewrite Validation.validateToken_run.
    destruct (Jwt.verify _ _ _); [split; reflexivity|]. cbv zeta.
    destruct (redis_up env); [|split; reflexivity].
    destruct (Redis.lookup _ _ _); split; reflexivity.
  - destruct req as [[t|] b].
    + rewrite Validation.guard_run.
      destruct (Jwt.verify _ _ _); [split; reflexivity|]. cbv zeta.
      destruct (redis_up env); [|split; reflexivity].
      destruct (Redis.lookup _ _ _); [split; reflexivity|].
      destruct (UsersService.select _ w) as [u|]; [|split; reflexivity].
      destruct (isActive u); split; reflexivity.
    + split; reflexivity.
  - destruct req as [a [rt|]].
    + unfold JwtRefreshStrategy.guard, Passport.authenticate, JwtRefreshStrategy.validate.
      cbn [Passport.body_refreshToken]. unfold_promise. unfold_token_service.
      unfold_users_service. unfold_promise.
      destruct (Jwt.verify _ _ _); [split; reflexivity|].
      destruct (redis_up env); [|split; reflexivity].
      destruct (Redis.lookup _ _ _) as [[|c stored]|]; try (split; reflexivity).
      destruct (Bcrypt.compare _ _); [|split; reflexivity].
      destruct (UsersService.select _ _); split; reflexivity.
    + split; reflexivity.
  - rewrite Directory.validateUser_run. reflexivity.
Qed.

(** X22.  An access token ends with its lifetime: from the second
    [iat + jwt.accessExpiresIn] on, validateToken answers
    [{ valid: false }] and the local guard answers 401 for a token the
    service minted, both without a Redis command. *)
Theorem access_token_ends_with_its_lifetime jti u env env' w :
  config env' = config env ->
  now_s env + accessExpiresIn (config env) <= now_s env' ->
  AuthService.validateToken (AuthService.signAccess env jti u) env' w =
    (inr AuthService.invalid, w) /\
  JwtStrategy.guard (Passport.bearer_request (AuthService.signAccess env jti u)) env' w =
    (inl (UnauthorizedException "Unauthorized"), w).
Proof.
  intros C T. unfold Passport.bearer_request.
  rewrite Validation.validateToken_run, Validation.guard_run. rewrite C.
  unfold AuthService.signAccess.
  rewrite verify_sign_expired by (reflexivity || exact T).
  split; reflexivity.
Qed.

(** X23.  validateToken does not ask what kind of token it is given: when
    one secret is configured for both kinds, a refresh token is answered
    valid as if it were an access token, with the payload [{sub, iat,
    exp}]; having no token id it is looked up under the blacklist key of
    the text undefined. *)
Theorem refresh_token_passes_as_access_token u env env' w :
  accessSecret (config env') = refreshSecret (config env) ->
  redis_up env' = true ->
  now_s env' < now_s env + refreshExpiresIn (config env) ->
  Redis.lookup (now env') (TokenService.blacklist_key "undefined") (redis w) = None ->
  exists w',
    AuthService.validateToken (AuthService.signRefresh env u) env' w =
      (inr {| AuthService.valid := true;
              AuthService.payload :=
                Some [("sub", Json.JStr (id u)); ("iat", Json.JNum (now_s env));
                      ("exp", Json.JNum (now_s env + refreshExpiresIn (config env)))] |},
       w').
Proof.
  intros S U T F. rewrite Validation.validateToken_run, S.
  unfold AuthService.signRefresh.
  rewrite JwtFacts.verify_sign by (reflexivity || exact T).
  cbn [app]. cbv zeta. rewrite U.
  replace (Json.template (Json.get "jti" _)) with "undefined" by reflexivity.
  rewrite F. eexists. reflexivity.
Qed.

(** X24.  Issuing tokens revokes no access token: whatever access token
    is presented, validateToken answers after a login or a refresh what
    it answered before, so rotation leaves the access token of the
    earlier issuance usable until it expires or is logged out. *)
Theorem issuance_revokes_no_access_token tok jti salt u env env' w :
  fst (AuthService.validateToken tok env'
         (snd (AuthService.generateTokens jti salt u env w)))
  = fst (AuthService.validateToken tok env' w).
Proof.
  rewrite !Validation.validateToken_run, Lifecycle.generateTokens_run.
  destruct (Jwt.verify _ _ _) as [e|p]; [reflexivity|]. cbv zeta.
  destruct (redis_up env'); [|reflexivity].
  destruct (redis_up env); cbn [snd redis Redis.store Redis.issue].
  - rewrite RedisFacts.lookup_insert_other by apply refresh_key_not_blacklist_key.
    destruct (Redis.lookup _ _ _); reflexivity.
  - destruct (Redis.lookup _ _ _); reflexivity.
Qed.

(** X25.  logout revokes the one token id it is given: an access token
    with another token id, the subject's own included, gets from
    validateToken the answer it got before. *)
Theorem logout_revokes_only_its_token_id userId jti tok env env' w :
  Json.template (Json.get "jti" (Jwt.payload_of tok)) <> jti ->
  fst (AuthService.validateToken tok env' (snd (AuthService.logout userId jti env w)))
  = fst (AuthService.validateToken tok env' w).
Proof.
  intros N. rewrite !Validation.validateToken_run, Lifecycle.logout_run.
  destruct (Jwt.verify tok _ _) as [e|p] eqn:V; [reflexivity|].
  apply JwtFacts.verify_inr in V. destruct V as (_ & _ & <-).
  cbv zeta. destruct (redis_up env'); [|reflexivity].
  destruct (redis_up env); cbn [snd redis Redis.store Redis.issue].
  - rewrite RedisFacts.lookup_delete_other by apply refresh_key_not_blacklist_key.
    rewrite RedisFacts.lookup_insert_other.
    + destruct (Redis.lookup _ _ _); reflexivity.
    + intros E. apply blacklist_key_inj in E. congruence.
  - destruct (Redis.lookup _ _ _); reflexivity.
Qed.

(** X26.  With Redis not answering, login, refresh and logout reject with
    the Redis error instead of reporting success; no key and no row
    changes, and logout has sent both of its commands all the same. *)
Theorem lifecycle_calls_fail_when_store_is_down jti salt u userId jti' env w :
  redis_up env = false ->
  (exists w1, AuthService.login jti salt u env w = (inl RedisError, w1) /\
              redis w1 = redis w /\ users w1 = users w) /\
  (exists w1, AuthService.refresh jti salt u env w = (inl RedisError, w1) /\
              redis w1 = redis w /\ users w1 = users w) /\
  (exists w1, AuthService.logout userId jti' env w = (inl RedisError, w1) /\
              redis w1 = redis w /\ users w1 = users w /\
              redis_log w1 =
                DEL (TokenService.refresh_key userId)
                :: SET (TokenService.blacklist_key jti') "1" 900 :: redis_log w).
Proof.
  intros D. unfold AuthService.login, AuthService.refresh.
  rewrite Lifecycle.generateTokens_run, Lifecycle.logout_run, D. cbv zeta.
  repeat split; eexists; repeat split.
Qed.

End WithCrypto.

Lemma guard_rejects_revoked_token_witness :
  exists m w1 w2,
    AuthService.logout (id Scenario.alice)
      (Json.template (Json.get "jti" (Jwt.payload_of Scenario.at1)))
      (Scenario.at_s 600) Scenario.world1 = (inr m, w1) /\
    JwtStrategy.guard
      {| Passport.bearer := Some Scenario.at1; Passport.body_refreshToken := None |}
      (Scenario.at_s 700) w1 =
      (inl (UnauthorizedException "Token has been revoked"), w2).
Proof.
  apply (guard_rejects_revoked_token (id Scenario.alice) Scenario.at1
           (Jwt.payload_of Scenario.at1) None (Scenario.at_s 600) (Scenario.at_s 700)
           Scenario.world1).
  - reflexivity.
  - reflexivity.
  - vm_compute. reflexivity.
  - vm_compute. reflexivity.
Defined.

Lemma guard_fails_closed_when_store_is_down_witness :
  exists e w',
    JwtStrategy.guard
      {| Passport.bearer := Some Scenario.at1; Passport.body_refreshToken := None |}
      (Cases.down_at_s 60) Scenario.world1 = (inl e, w') /\
    redis w' = redis Scenario.world1 /\ users w' = users Scenario.world1 /\
    (Jwt.signature_ok Scenario.at1 (accessSecret (config (Cases.down_at_s 60))) = true ->
     Jwt.expiry_ok Scenario.at1 (now_s (Cases.down_at_s 60)) = true -> e = RedisError).
Proof.
  apply (guard_fails_closed_when_store_is_down Scenario.at1 None (Cases.down_at_s 60)
           Scenario.world1).
  reflexivity.
Defined.

Lemma access_token_ends_with_its_lifetime_witness :
  AuthService.validateToken (AuthService.signAccess (Scenario.at_s 0) "jti-1" Scenario.alice)
    (Scenario.at_s 900) Scenario.world1 = (inr AuthService.invalid, Scenario.world1) /\
  JwtStrategy.guard
    (Passport.bearer_request (AuthService.signAccess (Scenario.at_s 0) "jti-1" Scenario.alice))
    (Scenario.at_s 900) Scenario.world1 =
    (inl (UnauthorizedException "Unauthorized"), Scenario.world1).
Proof.
  apply (access_token_ends_with_its_lifetime "jti-1" Scenario.alice (Scenario.at_s 0)
           (Scenario.at_s 900) Scenario.world1).
  - reflexivity.
  - vm_compute. discriminate.
Defined.

Lemma refresh_token_passes_as_access_token_witness :
  exists w',
    AuthService.validateToken
      (AuthService.signRefresh (Cases.at_s_one_secret 0) Scenario.alice)
      (Cases.at_s_one_secret 60) Scenario.world0 =
      (inr {| AuthService.valid := true;
              AuthService.payload :=
                Some [("sub", Json.JStr (id Scenario.alice));
                      ("iat", Json.JNum (now_s (Cases.at_s_one_secret 0)));
                      ("exp", Json.JNum (now_s (Cases.at_s_one_secret 0)
                                         + refreshExpiresIn
                                             (config (Cases.at_s_one_secret 0))))] |},
       w').
Proof.
  apply (refresh_token_passes_as_access_token Scenario.alice
           (Cases.at_s_one_secret 0) (Cases.at_s_one_secret 60) Scenario.world0).
  - reflexivity.
  - reflexivity.
  - vm_compute. reflexivity.
  - vm_compute. reflexivity.
Defined.

(** Alice holds a second access token, with token id jti-9; logging out
    jti-1 leaves it valid. *)
Lemma logout_revokes_only_its_token_id_witness :
  fst (AuthService.validateToken Cases.at1_other (Scenario.at_s 700)
         (snd (AuthService.logout (id Scenario.alice) "jti-1" (Scenario.at_s 600)
                 Scenario.world1)))
  = fst (AuthService.validateToken Cases.at1_other (Scenario.at_s 700) Scenario.world1).
Proof.
  apply (logout_revokes_only_its_token_id (id Scenario.alice) "jti-1" Cases.at1_other
           (Scenario.at_s 600) (Scenario.at_s 700) Scenario.world1).
  vm_compute. discriminate.
Defined.

Lemma lifecycle_calls_fail_when_store_is_down_witness :
  (exists w1, AuthService.login "jti-2" Scenario.salt2 Scenario.alice
                (Cases.down_at_s 60) Scenario.world1 = (inl RedisError, w1) /\
              redis w1 = redis Scenario.world1 /\ users w1 = users Scenario.world1) /\
  (exists w1, AuthService.refresh "jti-2" Scenario.salt2 Scenario.alice
                (Cases.down_at_s 60) Scenario.world1 = (inl RedisError, w1) /\
              redis w1 = redis Scenario.world1 /\ users w1 = users Scenario.world1) /\
  (exists w1, AuthService.logout (id Scenario.alice) "jti-1" (Cases.down_at_s 60)
                Scenario.world1 = (inl RedisError, w1) /\
              redis w1 = redis Scenario.world1 /\ users w1 = users Scenario.world1 /\
              redis_log w1 =
                DEL (TokenService.refresh_key (id Scenario.alice))
                :: SET (TokenService.blacklist_key "jti-1") "1" 900
                :: redis_log Scenario.world1).
Proof.
  apply (lifecycle_calls_fail_when_store_is_down "jti-2" Scenario.salt2 Scenario.alice
           (id Scenario.alice) "jti-1" (Cases.down_at_s 60) Scenario.world1).
  reflexivity.
Defined.

End AccessPath.


(** ** An invariant of the users table *)
Module TableInvariant.
Section WithCrypto.
Context `{Crypto}.

Lemma append_keeps_emails_unique (l : list User) (u : User) :
  List.find (UsersService.by_email (email u)) l = None ->
  NoDup (map email l) ->
  NoDup (map email (l ++ [u])).
Proof.
  intros F N. rewrite map_app. cbn [map]. apply NoDup_app.
  split; [exact N|]. split.
  - intros e I J. apply list_elem_of_In in I. apply list_elem_of_In in J.
    cbn in J. destruct J as [J|[]]. subst e.
    apply in_map_iff in I. destruct I as (v & E & I).
    pose proof (List.find_none _ _ F v I) as B.
    unfold UsersService.by_email in B. apply String.eqb_neq in B. congruence.
  - apply NoDup_singleton.
Qed.

(** X5.  No two rows ever share an address because of this code: if the
    addresses in the users table are pairwise different before create or
    register, they are pairwise different after it, whether the call
    succeeded, was refused as a duplicate or failed on Redis. *)
Theorem emails_stay_unique newId pwSalt jti salt dto env w :
  NoDup (map email (users w)) ->
  NoDup (map email (users (snd (UsersService.create newId pwSalt dto env w)))) /\
  NoDup (map email
           (users (snd (AuthService.register newId pwSalt jti salt dto env w)))).
Proof.
  intros N. rewrite Directory.create_run, Registration.register_run.
  unfold UsersService.select.
  destruct (find _ (users w)) eqn:F; [split; exact N|]. cbv zeta.
  rewrite Lifecycle.generateTokens_run. cbv zeta.
  assert (A : NoDup (map email
                (users w ++
                 [{| id := newId; email := UsersService.dto_email dto;
                     password := Bcrypt.hash pwSalt (UsersService.dto_password dto);
                     firstName := UsersService.dto_firstName dto;
                     lastName := UsersService.dto_lastName dto;
                     isActive := true; roles := ["user"];
                     createdAt := now env; updatedAt := now env |}]))).
  { apply append_keeps_emails_unique; [exact F | exact N]. }
  split; [exact A|].
  destruct (redis_up env); exact A.
Qed.

End WithCrypto.

Lemma emails_stay_unique_witness :
  NoDup (map email
           (users (snd (UsersService.create Cases.carol_id Cases.pw_salt
                          Cases.carol_dto (Scenario.at_s 0) Scenario.world0)))) /\
  NoDup (map email
           (users (snd (AuthService.register Cases.carol_id Cases.pw_salt "jti-c"
                          Scenario.salt1 Cases.carol_dto (Scenario.at_s 0)
                          Scenario.world0)))).
Proof.
  apply (emails_stay_unique Cases.carol_id Cases.pw_salt "jti-c" Scenario.salt1
           Cases.carol_dto (Scenario.at_s 0) Scenario.world0).
  vm_compute. apply NoDup_cons_2.
  - intros I. apply list_elem_of_In in I. cbn in I. destruct I as [I|[]].
    discriminate I.
  - apply NoDup_singleton.
Defined.

End TableInvariant.

(** Dave's pass phrase with its ending changed opens his account. *)
Example changed_ending_logs_in :
  exists u,
    email u = "dave@example.com" /\
    fst (AuthService.validateUser "dave@example.com" Cases.long_password'
           (Scenario.at_s 60)
           (snd (UsersService.create "d-1" Cases.pw_salt Cases.dave_dto
                   (Scenario.at_s 0) Scenario.world0))) = inr (Some u) /\
    Cases.long_password' <> UsersService.dto_password Cases.dave_dto.
Proof.
  eexists. split; [|split].
  2:{ vm_compute. reflexivity. }
  - reflexivity.
  - vm_compute. discriminate.
Qed.
